(** * Change tracking of the [homes] app: a shallow embedding of
    [homes/models.py] and [homes/admin.py].

    Python values held by model attributes are embedded as [pyval];
    database tables as association lists of rows keyed by primary key;
    the ORM's side effects through an explicit state-and-exception monad
    over [Store].  The database is PostgreSQL, reached through psycopg2, and
    Django runs in autocommit mode: each row write is committed as soon as
    it happens, so an exception leaves the writes made before it in the
    store. *)

From Stdlib Require Import ZArith String Ascii List Bool Lia.
From Stdlib Require Import Sorting.Permutation Sorting.Sorted.
Import ListNotations.
Open Scope string_scope.
Open Scope Z_scope.

(** ** Python values *)

(** A finite [decimal.Decimal]: sign, coefficient ([_int]) and exponent. *)
Record decimal := mkdecimal {
  dsign : bool;
  dcoef : N;
  dexp : Z
}.

(** The values the fields of the models hold in memory. *)
Inductive pyval :=
| PyNone
| PyStr (s : string)
| PyInt (z : Z)
| PyDecimal (d : decimal)
| PyNaN.  (** [Decimal('NaN')], as a [numeric] column holding NaN reads back *)

(** Decimal digits of a natural number (Python's [str] of a non-negative
    [int], the [_int] string of a [Decimal]). *)
Fixpoint digits_fuel (fuel : nat) (n : N) (acc : string) : string :=
  match fuel with
  | O => acc
  | S f =>
      let acc' := String (ascii_of_N (48 + N.modulo n 10)) acc in
      if N.eqb (N.div n 10) 0 then acc' else digits_fuel f (N.div n 10) acc'
  end.

Definition N_digits (n : N) : string := digits_fuel (S (N.size_nat n)) n "".

(** [str(i)] of a Python [int]. *)
Definition int_str (z : Z) : string :=
  if z <? 0 then "-" ++ N_digits (Z.abs_N z) else N_digits (Z.to_N z).

(** ["%+d" % k]. *)
Definition signed_int_str (z : Z) : string :=
  if z <? 0 then int_str z else "+" ++ int_str z.

Fixpoint zeros (n : nat) : string :=
  match n with O => "" | S k => String "0" (zeros k) end.

(** [Decimal.__str__] (scientific notation, [eng=False], [capitals=1]). *)
Definition decimal_str (d : decimal) : string :=
  let s := N_digits (dcoef d) in
  let len := Z.of_nat (String.length s) in
  let leftdigits := dexp d + len in
  let dotplace :=
    if (dexp d <=? 0) && (-6 <? leftdigits) then leftdigits else 1 in
  let parts :=
    if dotplace <=? 0 then ("0", "." ++ zeros (Z.to_nat (- dotplace)) ++ s)
    else if len <=? dotplace then (s ++ zeros (Z.to_nat (dotplace - len)), "")
    else (substring 0 (Z.to_nat dotplace) s,
          "." ++ substring (Z.to_nat dotplace)
                   (String.length s - Z.to_nat dotplace) s) in
  let expstr :=
    if leftdigits =? dotplace then ""
    else "E" ++ signed_int_str (leftdigits - dotplace) in
  (if dsign d then "-" else "") ++ fst parts ++ snd parts ++ expstr.

(** [str(v)]. *)
Definition py_str (v : pyval) : string :=
  match v with
  | PyNone => "None"
  | PyStr s => s
  | PyInt z => int_str z
  | PyDecimal d => decimal_str d
  | PyNaN => "NaN"
  end.

(** Signed coefficient of a decimal. *)
Definition dec_signed (d : decimal) : Z :=
  if dsign d then - Z.of_N (dcoef d) else Z.of_N (dcoef d).

(** Numeric equality of [c1 * 10^e1] and [c2 * 10^e2]. *)
Definition num_eqb (c1 e1 c2 e2 : Z) : bool :=
  let m := Z.min e1 e2 in
  c1 * 10 ^ (e1 - m) =? c2 * 10 ^ (e2 - m).

(** Python's [==] on the values fields hold: [Decimal] and [int] compare
    numerically, [str] with [str] by contents, anything else is unequal
    (a NaN equals nothing). *)
Definition py_eq (a b : pyval) : bool :=
  match a, b with
  | PyNone, PyNone => true
  | PyStr s, PyStr t => String.eqb s t
  | PyInt x, PyInt y => Z.eqb x y
  | PyInt x, PyDecimal d => num_eqb x 0 (dec_signed d) (dexp d)
  | PyDecimal d, PyInt y => num_eqb (dec_signed d) (dexp d) y 0
  | PyDecimal d, PyDecimal e =>
      num_eqb (dec_signed d) (dexp d) (dec_signed e) (dexp e)
  | _, _ => false
  end.

(** The decimal [c * 10^-2] with sign [neg], as the database returns a
    [DecimalField(decimal_places=2)]. *)
Definition dec2 (neg : bool) (c : N) : pyval := PyDecimal (mkdecimal neg c (-2)).

Example decimal_str_3000 : py_str (dec2 false 3000) = "30.00".
Proof. reflexivity. Qed.
Example decimal_str_neg : py_str (dec2 true 99999) = "-999.99".
Proof. reflexivity. Qed.
Example decimal_str_small : py_str (dec2 false 5) = "0.05".
Proof. reflexivity. Qed.
Example decimal_str_sci : py_str (PyDecimal (mkdecimal false 1 2)) = "1E+2".
Proof. reflexivity. Qed.
Example py_eq_dec_int : py_eq (dec2 false 3000) (PyInt 30) = true.
Proof. reflexivity. Qed.

(** ** Content types and models *)

(** The [django_content_type] rows of the [homes] app's models and of
    [ContentType] itself. *)
Inductive content_type :=
| CT_house | CT_room | CT_light | CT_thermostat | CT_trackrecord
| CT_contenttype.

Definition content_type_eqb (a b : content_type) : bool :=
  match a, b with
  | CT_house, CT_house | CT_room, CT_room | CT_light, CT_light
  | CT_thermostat, CT_thermostat | CT_trackrecord, CT_trackrecord
  | CT_contenttype, CT_contenttype => true
  | _, _ => false
  end.

(** [str(content_type)]: the model's verbose name. *)
Definition content_type_str (c : content_type) : string :=
  match c with
  | CT_house => "house"
  | CT_room => "room"
  | CT_light => "light"
  | CT_thermostat => "thermostat"
  | CT_trackrecord => "track record"
  | CT_contenttype => "content type"
  end.

(** Primary keys of the content type rows (assigned by the migrations; any
    injective numbering). *)
Definition content_type_pk (c : content_type) : Z :=
  match c with
  | CT_contenttype => 1 | CT_house => 7 | CT_room => 8 | CT_light => 9
  | CT_thermostat => 10 | CT_trackrecord => 11
  end.

(** [limit_choices_to=equipments]. *)
Definition equipments (c : content_type) : bool :=
  match c with CT_light | CT_room | CT_thermostat => true | _ => false end.

(** [MODES], [STATE] and [TYPE]: the stored keys of the choices. *)
Definition MODES : list string := ["off"; "fan"; "auto"; "cool"; "heat"].
Definition STATE : list string := ["on"; "off"].
Definition TYPE : list string :=
  ["State"; "Temperature"; "Mode"; "Temperature set point"].

(** Field values of the models (the [created]/[modified] timestamps of
    House, Room, Light and Thermostat are not used by the code and are left
    out). *)
Module House.
Record t := mk { name : pyval }.
End House.

Module Room.
Record t := mk { name : pyval; house : Z; current_temperature : pyval }.
End Room.

Module Light.
Record t := mk { name : pyval; room : Z; state : pyval }.
End Light.

Module Thermostat.
Record t := mk {
  name : pyval;
  house : Z;
  mode : pyval;
  current_temperature : pyval;
  temperature_set_point : pyval
}.
End Thermostat.

(** An in-memory model instance: its primary key ([None] before the first
    save), its current attribute values and the [FieldTracker] snapshot (the
    values as loaded from the database or as of the last save). *)
Record instance (A : Type) := mkinstance {
  pk : option Z;
  current : A;
  snapshot : A
}.
Arguments mkinstance {A}.
Arguments pk {A}.
Arguments current {A}.
Arguments snapshot {A}.

(** [self.tracker.has_changed(field)]: [previous(field) != value]. *)
Definition has_changed {A} (i : instance A) (field : A -> pyval) : bool :=
  negb (py_eq (field (snapshot i)) (field (current i))).

(** [self.tracker.previous(field)]. *)
Definition previous {A} (i : instance A) (field : A -> pyval) : pyval :=
  field (snapshot i).

(** A [TrackRecord] being constructed: the keyword arguments of
    [TrackRecord.objects.create]. *)
Module TrackRecord.
Record t := mk {
  name : pyval;
  target_content_type : option content_type;
  target_object_id : option Z;
  state_type : pyval;
  from_state : pyval;
  to_state : pyval
}.
End TrackRecord.

(** A persisted row of the [TrackRecord] table. *)
Module TrackRecordRow.
Record t := mk {
  id : Z;
  name : string;
  target_content_type : content_type;
  target_object_id : Z;
  state_type : string;
  from_state : string;
  to_state : string;
  created : Z;
  modified : Z
}.
End TrackRecordRow.

(** ** The database

    PostgreSQL through psycopg2.  [clock] counts the calls of
    [timezone.now()] made so far and [time_at n] is the value the call
    numbered [n] returns; each [*_seq] is the last value [nextval] returned
    for the table's id sequence. *)

Record Store := mkstore {
  houses : list (Z * House.t);
  rooms : list (Z * Room.t);
  lights : list (Z * Light.t);
  thermostats : list (Z * Thermostat.t);
  track_records : list TrackRecordRow.t;
  room_seq : Z;
  light_seq : Z;
  thermostat_seq : Z;
  track_record_seq : Z;
  clock : Z;
  time_at : Z -> Z
}.

Fixpoint lookup {A} (k : Z) (l : list (Z * A)) : option A :=
  match l with
  | [] => None
  | (k', v) :: l' => if k =? k' then Some v else lookup k l'
  end.

(** The rows after [UPDATE ... WHERE id = k] sets the row with key [k] to
    [v] (appended when there is none). *)
Fixpoint upsert {A} (k : Z) (v : A) (l : list (Z * A)) : list (Z * A) :=
  match l with
  | [] => [(k, v)]
  | (k', v') :: l' => if k =? k' then (k, v) :: l' else (k', v') :: upsert k v l'
  end.

Definition max_track_record_id (l : list TrackRecordRow.t) : Z :=
  fold_right (fun r m => Z.max (TrackRecordRow.id r) m) 0 l.

(** [nextval] of the TrackRecord id sequence.  TrackRecord ids are only
    ever drawn from it, so in the states the app reaches its last value is
    at least every id of the table and this is [track_record_seq s + 1]; the
    [Z.max] extends that to the other stores. *)
Definition next_track_record_id (s : Store) : Z :=
  Z.max (track_record_seq s) (max_track_record_id (track_records s)) + 1.

Definition find_track_record (k : Z) (l : list TrackRecordRow.t)
  : option TrackRecordRow.t :=
  find (fun r => TrackRecordRow.id r =? k) l.

Definition set_rooms (s : Store) l :=
  mkstore (houses s) l (lights s) (thermostats s) (track_records s)
    (room_seq s) (light_seq s) (thermostat_seq s) (track_record_seq s)
    (clock s) (time_at s).
Definition set_lights (s : Store) l :=
  mkstore (houses s) (rooms s) l (thermostats s) (track_records s)
    (room_seq s) (light_seq s) (thermostat_seq s) (track_record_seq s)
    (clock s) (time_at s).
Definition set_thermostats (s : Store) l :=
  mkstore (houses s) (rooms s) (lights s) l (track_records s)
    (room_seq s) (light_seq s) (thermostat_seq s) (track_record_seq s)
    (clock s) (time_at s).
Definition set_track_records (s : Store) l :=
  mkstore (houses s) (rooms s) (lights s) (thermostats s) l
    (room_seq s) (light_seq s) (thermostat_seq s) (track_record_seq s)
    (clock s) (time_at s).
Definition set_room_seq (s : Store) n :=
  mkstore (houses s) (rooms s) (lights s) (thermostats s) (track_records s)
    n (light_seq s) (thermostat_seq s) (track_record_seq s)
    (clock s) (time_at s).
Definition set_light_seq (s : Store) n :=
  mkstore (houses s) (rooms s) (lights s) (thermostats s) (track_records s)
    (room_seq s) n (thermostat_seq s) (track_record_seq s)
    (clock s) (time_at s).
Definition set_thermostat_seq (s : Store) n :=
  mkstore (houses s) (rooms s) (lights s) (thermostats s) (track_records s)
    (room_seq s) (light_seq s) n (track_record_seq s)
    (clock s) (time_at s).

(** [n] calls of [timezone.now()]. *)
Definition advance (n : Z) (s : Store) :=
  mkstore (houses s) (rooms s) (lights s) (thermostats s) (track_records s)
    (room_seq s) (light_seq s) (thermostat_seq s) (track_record_seq s)
    (clock s + n) (time_at s).

(** The rest of an [INSERT] into TrackRecord once its row is in the table:
    the two [timezone.now()] calls of [pre_save] ([created], [modified]) and
    the [nextval] that gave the row its id. *)
Definition tick (s : Store) :=
  mkstore (houses s) (rooms s) (lights s) (thermostats s) (track_records s)
    (room_seq s) (light_seq s) (thermostat_seq s)
    (Z.max (track_record_seq s) (max_track_record_id (track_records s)))
    (clock s + 2) (time_at s).

(** [ct.get_object_for_this_type(pk=id)] as used by the [GenericForeignKey]:
    the [name] of the object found, [None] on [DoesNotExist]. *)
Definition resolve (s : Store) (c : content_type) (oid : option Z)
  : option pyval :=
  match oid with
  | None => None
  | Some k =>
      match c with
      | CT_house => option_map House.name (lookup k (houses s))
      | CT_room => option_map Room.name (lookup k (rooms s))
      | CT_light => option_map Light.name (lookup k (lights s))
      | CT_thermostat => option_map Thermostat.name (lookup k (thermostats s))
      | CT_trackrecord =>
          option_map (fun r => PyStr (TrackRecordRow.name r))
            (find_track_record k (track_records s))
      | CT_contenttype =>
          option_map (fun c' => PyStr (content_type_str c'))
            (find (fun c' => content_type_pk c' =? k)
               [CT_contenttype; CT_house; CT_room; CT_light; CT_thermostat;
                CT_trackrecord])
      end
  end.

(** ** Exceptions and the ORM monad *)

Inductive field_error :=
| ErrMaxLength (limit actual : nat)  (** [MaxLengthValidator] *)
| ErrBlank                           (** "This field cannot be blank." *)
| ErrNull                            (** "This field cannot be null." *)
| ErrInvalidChoice (value : string)  (** "Value %r is not a valid choice." *)
| ErrInvalidPk (value : Z)           (** [ForeignKey.validate] *)
| ErrMinValue (limit : Z)            (** [MinValueValidator] *)
| ErrMaxValue (limit : Z).           (** [MaxValueValidator] *)

Inductive verror :=
| FieldError (field : string) (e : field_error)
| NonFieldError (msg : string).

Inductive exc :=
| ValidationError (errs : list verror)
| PyException (cls : string).

(** A computation against the database: writes done before an exception
    stay in the returned store (autocommit). *)
Definition M (A : Type) : Type := Store -> (exc + A) * Store.

Definition ret {A} (a : A) : M A := fun s => (inr a, s).

Definition bind {A B} (m : M A) (f : A -> M B) : M B :=
  fun s =>
    match m s with
    | (inl e, s') => (inl e, s')
    | (inr a, s') => f a s'
    end.

Definition raise {A} (e : exc) : M A := fun s => (inl e, s).

Notation "x <- c1 ;; c2" := (bind c1 (fun x => c2))
  (at level 61, c1 at next level, right associativity).
Notation "c1 ;; c2" := (bind c1 (fun _ => c2))
  (at level 61, right associativity).

Definition when (b : bool) (m : M unit) : M unit := if b then m else ret tt.

(** ** Field validation ([Model.clean_fields]) *)

(** [CharField.to_python]. *)
Definition charfield_to_python (v : pyval) : pyval :=
  match v with PyStr _ | PyNone => v | _ => PyStr (py_str v) end.

(** [value in field.empty_values]. *)
Definition is_empty (v : pyval) : bool :=
  match v with PyNone => true | PyStr "" => true | _ => false end.

(** [Field.validate] of a [CharField(blank=False, null=False)]: the first
    failing check raises. *)
Definition charfield_validate (choices : option (list string)) (v : pyval)
  : option field_error :=
  match choices with
  | Some cs =>
      if negb (is_empty v) then
        if existsb (String.eqb (py_str v)) cs then None
        else Some (ErrInvalidChoice (py_str v))
      else if is_empty v then
        match v with PyNone => Some ErrNull | _ => Some ErrBlank end
      else None
  | None =>
      match v with
      | PyNone => Some ErrNull
      | _ => if is_empty v then Some ErrBlank else None
      end
  end.

(** [CharField.clean]: [to_python], [validate], then [run_validators]
    (skipped for empty values).  Lengths count the characters of ASCII
    strings. *)
Definition charfield_clean (field : string) (max_length : nat)
    (choices : option (list string)) (raw : pyval) : list verror :=
  let v := charfield_to_python raw in
  match charfield_validate choices v with
  | Some e => [FieldError field e]
  | None =>
      if is_empty v then []
      else if Nat.ltb max_length (String.length (py_str v))
           then [FieldError field (ErrMaxLength max_length
                                     (String.length (py_str v)))]
           else []
  end.

(** [ForeignKey(ContentType, limit_choices_to=equipments)].clean *)
Definition content_type_fk_clean (c : option content_type) : list verror :=
  match c with
  | None => [FieldError "target_content_type" ErrNull]
  | Some c =>
      if equipments c then []
      else [FieldError "target_content_type" (ErrInvalidPk (content_type_pk c))]
  end.

(** [PositiveIntegerField].clean: [validate] rejects [None], then
    [run_validators] runs the [MinValueValidator(0)] and
    [MaxValueValidator(2147483647)] that [integer_field_range] gives on
    PostgreSQL. *)
Definition positive_integer_clean (field : string) (v : option Z)
  : list verror :=
  match v with
  | None => [FieldError field ErrNull]
  | Some z =>
      ((if z <? 0 then [FieldError field (ErrMinValue 0)] else [])
       ++ (if 2147483647 <? z then [FieldError field (ErrMaxValue 2147483647)]
           else []))%list
  end.

Definition object_id_value (v : option Z) : pyval :=
  match v with None => PyNone | Some z => PyInt z end.

(** [TrackRecord.clean_fields()], in field declaration order ([id],
    [created] and [modified] are blank and empty, hence skipped). *)
Definition track_record_clean_fields (a : TrackRecord.t) : list verror :=
  (charfield_clean "name" 200 None (TrackRecord.name a)
   ++ content_type_fk_clean (TrackRecord.target_content_type a)
   ++ positive_integer_clean "target_object_id" (TrackRecord.target_object_id a)
   ++ charfield_clean "state_type" 25 (Some TYPE) (TrackRecord.state_type a)
   ++ charfield_clean "from_state" 6 None (TrackRecord.from_state a)
   ++ charfield_clean "to_state" 6 None (TrackRecord.to_state a))%list.

(** [TrackRecord.clean()]: reading [self.target_content_type] when no
    content type is set raises [RelatedObjectDoesNotExist]. *)
Definition track_record_clean (s : Store) (a : TrackRecord.t)
  : exc + list verror :=
  match TrackRecord.target_content_type a with
  | None => inl (PyException "RelatedObjectDoesNotExist")
  | Some c =>
      match resolve s c (TrackRecord.target_object_id a) with
      | Some _ => inr []
      | None =>
          inr [NonFieldError
                 (content_type_str c ++ " with id "
                  ++ py_str (object_id_value (TrackRecord.target_object_id a))
                  ++ " does not exist!")]
      end
  end.

(** [Model.full_clean()]: [clean_fields], then [clean] (run even when
    fields failed); [validate_unique] has nothing to check. *)
Definition track_record_full_clean (s : Store) (a : TrackRecord.t)
  : option exc :=
  match track_record_clean s a with
  | inl e => Some e
  | inr errs2 =>
      match (track_record_clean_fields a ++ errs2)%list with
      | [] => None
      | errs => Some (ValidationError errs)
      end
  end.

(** The row [INSERT]ed for a validated record: every [CharField] value goes
    through [to_python] ([str]); [created] and [modified] each take a
    [timezone.now()] of their own. *)
Definition track_record_row (a : TrackRecord.t) (k created modified : Z)
  : TrackRecordRow.t :=
  TrackRecordRow.mk k (py_str (TrackRecord.name a))
    (match TrackRecord.target_content_type a with
     | Some c => c | None => CT_contenttype end)
    (match TrackRecord.target_object_id a with Some z => z | None => 0 end)
    (py_str (TrackRecord.state_type a))
    (py_str (TrackRecord.from_state a))
    (py_str (TrackRecord.to_state a))
    created modified.

(** [TrackRecord.objects.create(name=..., ...)]: [TrackRecord.save] runs
    [full_clean()], then inserts the row under the sequence's next id.  A
    validated row meets every constraint of the table (strings holding a NUL
    character, which psycopg2 refuses, are not modelled). *)
Definition track_record_create (a : TrackRecord.t) : M TrackRecordRow.t :=
  fun s =>
    match track_record_full_clean s a with
    | Some e => (inl e, s)
    | None =>
        let r := track_record_row a (next_track_record_id s)
                   (time_at s (clock s)) (time_at s (clock s + 1)) in
        (inr r, tick (set_track_records s (track_records s ++ [r])%list))
    end.

(** ** Values sent to the database ([Field.get_db_prep_save]) *)

(** The characters [str.strip()] removes, among the code points below 256
    ([Py_UNICODE_ISSPACE]). *)
Definition is_space (ch : ascii) : bool :=
  let n := nat_of_ascii ch in
  (Nat.leb 9 n && Nat.leb n 13) || (Nat.leb 28 n && Nat.leb n 32)
  || Nat.eqb n 133 || Nat.eqb n 160.

Fixpoint drop_spaces (l : list ascii) : list ascii :=
  match l with
  | ch :: l' => if is_space ch then drop_spaces l' else l
  | [] => []
  end.

Definition strip (l : list ascii) : list ascii :=
  rev (drop_spaces (rev (drop_spaces l))).

Definition ascii_digit (ch : ascii) : bool :=
  Nat.leb 48 (nat_of_ascii ch) && Nat.leb (nat_of_ascii ch) 57.

Definition digits_value (l : list ascii) : N :=
  fold_left (fun acc ch => acc * 10 + (N_of_ascii ch - 48))%N l 0%N.

(** The longest prefix of digits, and the rest. *)
Fixpoint span_digits (l : list ascii) : list ascii * list ascii :=
  match l with
  | ch :: l' =>
      if ascii_digit ch then let (d, r) := span_digits l' in (ch :: d, r)
      else ([], l)
  | [] => ([], [])
  end.

Definition lower (ch : ascii) : ascii :=
  let n := nat_of_ascii ch in
  if Nat.leb 65 n && Nat.leb n 90 then ascii_of_nat (n + 32) else ch.

(** [l] starts with the lower case word [p], in any case: the rest of [l]. *)
Fixpoint prefix_ci (p l : list ascii) : option (list ascii) :=
  match p, l with
  | [], _ => Some l
  | c :: p', ch :: l' => if Ascii.eqb c (lower ch) then prefix_ci p' l' else None
  | _ :: _, [] => None
  end.

(** The values [Decimal(str)] produces. *)
Inductive dec_literal :=
| LitFinite (d : decimal)
| LitInfinity (neg : bool)
| LitNaN (neg : bool) (payload : N)
| LitsNaN (neg : bool) (payload : N).

(** The exponent bounds of libmpdec's maximal context, in which
    [Decimal(str)] converts exactly or fails. *)
Definition MAX_EMAX : Z := 999999999999999999.
Definition MIN_ETINY : Z := -1999999999999999997.

Definition num_digits (c : N) : Z := Z.of_nat (String.length (N_digits c)).

(** The digits after the sign, the fraction and the exponent of a finite
    literal: its coefficient and exponent. *)
Definition parse_finite (neg : bool) (body : list ascii) : option decimal :=
  let (ip, r1) := span_digits body in
  let (fp, r2) :=
    match r1 with
    | "."%char :: r => span_digits r
    | _ => ([], r1)
    end in
  let ex :=
    match r2 with
    | [] => Some 0
    | e :: r =>
        if Ascii.eqb (lower e) "e"%char then
          let '(eneg, r') :=
            match r with
            | "-"%char :: r' => (true, r')
            | "+"%char :: r' => (false, r')
            | _ => (false, r)
            end in
          let (ed, rest) := span_digits r' in
          match ed, rest with
          | _ :: _, [] =>
              let v := Z.of_N (digits_value ed) in
              Some (if eneg then - v else v)
          | _, _ => None
          end
        else None
    end in
  match (ip ++ fp)%list, ex with
  | _ :: _, Some x =>
      let c := digits_value (ip ++ fp)%list in
      let e := x - Z.of_nat (List.length fp) in
      if (MIN_ETINY <=? e) && (e + num_digits c - 1 <=? MAX_EMAX)
      then Some (mkdecimal neg c e) else None
  | _, _ => None
  end.

(** [Decimal(x)] for a string [x] (CPython's [_decimal]: [numeric_as_ascii]
    strips the white space around [x] and drops every underscore, then
    [mpd_qset_string] parses the rest exactly); [None] is the
    [InvalidOperation] it raises. *)
Definition parse_decimal (x : string) : option dec_literal :=
  let l := filter (fun ch => negb (Ascii.eqb ch "_"%char))
             (strip (list_ascii_of_string x)) in
  let '(neg, body) :=
    match l with
    | "-"%char :: r => (true, r)
    | "+"%char :: r => (false, r)
    | _ => (false, l)
    end in
  let payload r :=
    let (d, rest) := span_digits r in
    match rest with [] => Some (digits_value d) | _ => None end in
  match prefix_ci (list_ascii_of_string "nan") body with
  | Some r => option_map (LitNaN neg) (payload r)
  | None =>
      match prefix_ci (list_ascii_of_string "snan") body with
      | Some r => option_map (LitsNaN neg) (payload r)
      | None =>
          match prefix_ci (list_ascii_of_string "inf") body with
          | Some [] => Some (LitInfinity neg)
          | Some r =>
              match prefix_ci (list_ascii_of_string "inity") r with
              | Some [] => Some (LitInfinity neg)
              | _ => None
              end
          | None => option_map LitFinite (parse_finite neg body)
          end
      end
  end.

(** [c / 10^k] rounded half to even ([k >= 1]). *)
Definition round_half_even (c k : N) : N :=
  let q := (c / 10 ^ k)%N in
  let r := (c mod 10 ^ k)%N in
  let h := (5 * 10 ^ (k - 1))%N in
  if (h <? r)%N || ((r =? h)%N && N.odd q) then (q + 1)%N else q.

(** [d.quantize(Decimal(1).scaleb(-2), context)] in a context of precision
    5 rounding [ROUND_HALF_EVEN]: [None] when the result needs more than 5
    digits ([InvalidOperation]). *)
Definition quantize2 (d : decimal) : option decimal :=
  let c :=
    if dexp d >=? -2 then (dcoef d * 10 ^ Z.to_N (dexp d + 2))%N
    else round_half_even (dcoef d) (Z.to_N (-2 - dexp d)) in
  if (c <? 100000)%N then Some (mkdecimal (dsign d) c (-2)) else None.

(** Query parameters, as psycopg2 sends them. *)
Inductive param :=
| PNull
| PText (x : string)
| PInt (z : Z)
| PDecimal (d : decimal)            (** ["{:f}".format] of a finite decimal *)
| PNaN (neg : bool) (payload : N).  (** ["{:f}".format] of a quiet NaN *)

Definition quantized_param (d : decimal) : exc + param :=
  match quantize2 d with
  | Some q => inr (PDecimal q)
  | None => inl (PyException "InvalidOperation")
  end.

(** [DecimalField(max_digits=5, decimal_places=2).get_db_prep_save]:
    [format_number(self.to_python(value), 5, 2)].  [to_python] turns an
    [int] or a [str] into a [Decimal], raising [ValidationError] for a
    string that does not parse; quantizing a quiet NaN keeps it with its
    payload cut to 5 digits, quantizing an infinity or a signalling NaN
    raises [InvalidOperation]. *)
Definition decimal_prep (v : pyval) : exc + param :=
  match v with
  | PyNone => inr PNull
  | PyInt z => quantized_param (mkdecimal (z <? 0) (Z.abs_N z) 0)
  | PyDecimal d => quantized_param d
  | PyNaN => inr (PNaN false 0)
  | PyStr x =>
      match parse_decimal x with
      | None =>
          inl (ValidationError
                 [NonFieldError ("'" ++ x ++ "' value must be a decimal number.")])
      | Some (LitFinite d) => quantized_param d
      | Some (LitNaN neg p) => inr (PNaN neg (p mod 100000))
      | Some _ => inl (PyException "InvalidOperation")
      end
  end.

(** [varchar(n)] input: a longer string is an error unless the characters
    past [n] are all spaces, which are cut off. *)
Definition varchar_in (n : nat) (x : string) : option string :=
  if Nat.leb (String.length x) n then Some x
  else if forallb (fun ch => Ascii.eqb ch " "%char)
            (list_ascii_of_string (substring n (String.length x - n) x))
       then Some (substring 0 n x)
       else None.

(** The column types of the entity tables: [varchar(n)],
    [numeric(5, 2)] and the [integer] of a foreign key. *)
Inductive column := Varchar (n : nat) | Numeric52 | ForeignKeyId.

(** [field.get_db_prep_save(value)]: a [CharField] sends [str(value)] (its
    [to_python]), a foreign key the key. *)
Definition prep_column (c : column) (v : pyval) : exc + param :=
  match c with
  | Varchar _ =>
      inr (match charfield_to_python v with PyStr x => PText x | _ => PNull end)
  | Numeric52 => decimal_prep v
  | ForeignKeyId => inr (match v with PyInt z => PInt z | _ => PNull end)
  end.

(** The server's conversion of a parameter to the column's type: the value
    the column then holds, as read back ([None] for NULL), or [DataError].
    A [numeric] drops the sign of a zero and accepts [NaN] but not [-NaN] or
    a NaN with a payload. *)
Definition column_in (c : column) (p : param) : exc + option pyval :=
  match c, p with
  | _, PNull => inr None
  | Varchar n, PText x =>
      match varchar_in n x with
      | Some y => inr (Some (PyStr y))
      | None => inl (PyException "DataError")
      end
  | Numeric52, PDecimal d =>
      inr (Some (dec2 (dsign d && negb (dcoef d =? 0)%N) (dcoef d)))
  | Numeric52, PNaN false N0 => inr (Some PyNaN)
  | ForeignKeyId, PInt z => inr (Some (PyInt z))
  | _, _ => inl (PyException "DataError")
  end.

(** [get_db_prep_save] of every field, in declaration order. *)
Fixpoint prep_row (cs : list (column * pyval)) : exc + list (column * param) :=
  match cs with
  | [] => inr []
  | (c, v) :: cs' =>
      match prep_column c v with
      | inl e => inl e
      | inr p =>
          match prep_row cs' with
          | inl e => inl e
          | inr ps => inr ((c, p) :: ps)
          end
      end
  end.

Fixpoint convert_row (ps : list (column * param)) : exc + list (option pyval) :=
  match ps with
  | [] => inr []
  | (c, p) :: ps' =>
      match column_in c p with
      | inl e => inl e
      | inr v =>
          match convert_row ps' with
          | inl e => inl e
          | inr vs => inr (v :: vs)
          end
      end
  end.

(** The values a row write stores, or the exception raised before the
    statement reaches the table's constraints. *)
Definition row_values (cs : list (column * pyval)) : exc + list (option pyval) :=
  match prep_row cs with
  | inl e => inl e
  | inr ps => convert_row ps
  end.

(** ** The save hooks ([Thermostat.save], [Room.save], [Light.save]) *)

(** An entity table: its rows, its id sequence, the columns a value is
    written to, the row the stored column values make ([None] when one of
    them is NULL: every column is [NOT NULL]), and the foreign key to the
    parent table. *)
Record table (A : Type) := mktable {
  tbl_rows : Store -> list (Z * A);
  tbl_set_rows : Store -> list (Z * A) -> Store;
  tbl_seq : Store -> Z;
  tbl_set_seq : Store -> Z -> Store;
  tbl_columns : A -> list (column * pyval);
  tbl_of_values : list (option pyval) -> option A;
  tbl_parent : A -> Z;
  tbl_parent_exists : Store -> Z -> bool
}.
Arguments tbl_rows {A}.
Arguments tbl_set_rows {A}.
Arguments tbl_seq {A}.
Arguments tbl_set_seq {A}.
Arguments tbl_columns {A}.
Arguments tbl_of_values {A}.
Arguments tbl_parent {A}.
Arguments tbl_parent_exists {A}.

(** The row the database holds after writing [a]. *)
Definition stored_row {A} (T : table A) (a : A) : option A :=
  match row_values (tbl_columns T a) with
  | inr vs => tbl_of_values T vs
  | inl _ => None
  end.

(** [super().save()] ([Model.save_base], [_save_table]).  With [pk] set:
    [UPDATE ... WHERE id = pk] ([pre_save] of [modified] calls
    [timezone.now()]) and, when no row matched, an [INSERT] under [pk]
    ([created] and [modified] call it again).  Without [pk]: an [INSERT]
    under [nextval] of the table's sequence.  The values are prepared field
    by field, then converted by the server; a NULL in a [NOT NULL] column, a
    taken id or a missing parent row fails the statement with
    [IntegrityError] (an [UPDATE] checks the foreign key only when it
    changes it).  A failed statement writes no row, but [nextval] is not
    rolled back. *)
Definition model_save {A} (T : table A) (i : instance A) : M unit :=
  fun s =>
    match pk i with
    | Some p =>
        let s1 := advance 1 s in
        match row_values (tbl_columns T (current i)) with
        | inl e => (inl e, s1)
        | inr vs =>
            match lookup p (tbl_rows T s1) with
            | Some old =>
                match tbl_of_values T vs with
                | Some row =>
                    if (tbl_parent T old =? tbl_parent T row)
                       || tbl_parent_exists T s1 (tbl_parent T row)
                    then (inr tt, tbl_set_rows T s1 (upsert p row (tbl_rows T s1)))
                    else (inl (PyException "IntegrityError"), s1)
                | None => (inl (PyException "IntegrityError"), s1)
                end
            | None =>
                let s2 := advance 2 s1 in
                match tbl_of_values T vs with
                | Some row =>
                    if tbl_parent_exists T s2 (tbl_parent T row)
                    then (inr tt, tbl_set_rows T s2 (tbl_rows T s2 ++ [(p, row)]))
                    else (inl (PyException "IntegrityError"), s2)
                | None => (inl (PyException "IntegrityError"), s2)
                end
            end
        end
    | None =>
        let s1 := advance 2 s in
        match row_values (tbl_columns T (current i)) with
        | inl e => (inl e, s1)
        | inr vs =>
            let k := tbl_seq T s1 + 1 in
            let s2 := tbl_set_seq T s1 k in
            match tbl_of_values T vs with
            | Some row =>
                if match lookup k (tbl_rows T s2) with
                   | Some _ => false
                   | None => tbl_parent_exists T s2 (tbl_parent T row)
                   end
                then (inr tt, tbl_set_rows T s2 (tbl_rows T s2 ++ [(k, row)]))
                else (inl (PyException "IntegrityError"), s2)
            | None => (inl (PyException "IntegrityError"), s2)
            end
        end
    end.

Definition house_exists (s : Store) (k : Z) : bool :=
  match lookup k (houses s) with Some _ => true | None => false end.

Definition room_exists (s : Store) (k : Z) : bool :=
  match lookup k (rooms s) with Some _ => true | None => false end.

(** [homes_thermostat]: [name varchar(200)], [house_id integer],
    [mode varchar(5)], [current_temperature numeric(5, 2)],
    [temperature_set_point numeric(5, 2)]. *)
Definition thermostat_columns (t : Thermostat.t) : list (column * pyval) :=
  [(Varchar 200, Thermostat.name t); (ForeignKeyId, PyInt (Thermostat.house t));
   (Varchar 5, Thermostat.mode t);
   (Numeric52, Thermostat.current_temperature t);
   (Numeric52, Thermostat.temperature_set_point t)].

Definition thermostat_of_values (vs : list (option pyval))
  : option Thermostat.t :=
  match vs with
  | [Some nm; Some (PyInt h); Some md; Some ct; Some sp] =>
      Some (Thermostat.mk nm h md ct sp)
  | _ => None
  end.

Definition thermostat_table : table Thermostat.t :=
  mktable _ thermostats set_thermostats thermostat_seq set_thermostat_seq
    thermostat_columns thermostat_of_values Thermostat.house house_exists.

(** [homes_room]: [name varchar(200)], [house_id integer],
    [current_temperature numeric(5, 2)]. *)
Definition room_columns (r : Room.t) : list (column * pyval) :=
  [(Varchar 200, Room.name r); (ForeignKeyId, PyInt (Room.house r));
   (Numeric52, Room.current_temperature r)].

Definition room_of_values (vs : list (option pyval)) : option Room.t :=
  match vs with
  | [Some nm; Some (PyInt h); Some ct] => Some (Room.mk nm h ct)
  | _ => None
  end.

Definition room_table : table Room.t :=
  mktable _ rooms set_rooms room_seq set_room_seq
    room_columns room_of_values Room.house house_exists.

(** [homes_light]: [name varchar(200)], [room_id integer],
    [state varchar(3)]. *)
Definition light_columns (l : Light.t) : list (column * pyval) :=
  [(Varchar 200, Light.name l); (ForeignKeyId, PyInt (Light.room l));
   (Varchar 3, Light.state l)].

Definition light_of_values (vs : list (option pyval)) : option Light.t :=
  match vs with
  | [Some nm; Some (PyInt r); Some st] => Some (Light.mk nm r st)
  | _ => None
  end.

Definition light_table : table Light.t :=
  mktable _ lights set_lights light_seq set_light_seq
    light_columns light_of_values Light.room room_exists.

Definition track (name : pyval) (c : content_type) (p : Z) (label : string)
    (prev cur : pyval) : M unit :=
  _ <- track_record_create
         (TrackRecord.mk name (Some c) (Some p) (PyStr label) prev cur) ;;
  ret tt.

Definition thermostat_save (i : instance Thermostat.t) : M unit :=
  match pk i with
  | None => model_save thermostat_table i
  | Some p =>
      let nm := Thermostat.name (current i) in
      when (has_changed i Thermostat.current_temperature)
        (track nm CT_thermostat p "Temperature"
           (previous i Thermostat.current_temperature)
           (Thermostat.current_temperature (current i))) ;;
      when (has_changed i Thermostat.temperature_set_point)
        (track nm CT_thermostat p "Temperature set point"
           (previous i Thermostat.temperature_set_point)
           (Thermostat.temperature_set_point (current i))) ;;
      when (has_changed i Thermostat.mode)
        (track nm CT_thermostat p "Mode"
           (previous i Thermostat.mode) (Thermostat.mode (current i))) ;;
      model_save thermostat_table i
  end.

Definition room_save (i : instance Room.t) : M unit :=
  match pk i with
  | Some p =>
      when (has_changed i Room.current_temperature)
        (track (Room.name (current i)) CT_room p "Temperature"
           (previous i Room.current_temperature)
           (Room.current_temperature (current i)))
  | None => ret tt
  end ;;
  model_save room_table i.

Definition light_save (i : instance Light.t) : M unit :=
  match pk i with
  | Some p =>
      when (has_changed i Light.state)
        (track (Light.name (current i)) CT_light p "State"
           (previous i Light.state) (Light.state (current i)))
  | None => ret tt
  end ;;
  model_save light_table i.

(** ** Deletion ([Model.delete] through the deletion [Collector])

    The collector gathers the object, the rows reaching it through an
    [on_delete=CASCADE] foreign key (a Room's lights) and, through each
    [GenericRelation] [track_records], the TrackRecords whose
    [(target_content_type, target_object_id)] is one of the collected
    objects; all of them are deleted inside one [transaction.atomic()]. *)

Definition targets (c : content_type) (k : Z) (r : TrackRecordRow.t) : bool :=
  content_type_eqb (TrackRecordRow.target_content_type r) c
  && (TrackRecordRow.target_object_id r =? k).

Definition drop_key {A} (k : Z) (l : list (Z * A)) : list (Z * A) :=
  filter (fun kv => negb (fst kv =? k)) l.

Definition thermostat_delete (k : Z) (s : Store) : Store :=
  set_track_records (set_thermostats s (drop_key k (thermostats s)))
    (filter (fun r => negb (targets CT_thermostat k r)) (track_records s)).

Definition light_delete (k : Z) (s : Store) : Store :=
  set_track_records (set_lights s (drop_key k (lights s)))
    (filter (fun r => negb (targets CT_light k r)) (track_records s)).

(** The keys of the lights of room [k] ([room.lights]). *)
Definition room_light_keys (k : Z) (s : Store) : list Z :=
  map fst (filter (fun kv => Light.room (snd kv) =? k) (lights s)).

Definition room_delete (k : Z) (s : Store) : Store :=
  let ls := room_light_keys k s in
  set_track_records
    (set_lights (set_rooms s (drop_key k (rooms s)))
       (filter (fun kv => negb (existsb (Z.eqb (fst kv)) ls)) (lights s)))
    (filter (fun r => negb (targets CT_room k r)
                      && negb (existsb (fun l => targets CT_light l r) ls))
       (track_records s)).

(** ** Rendering ([TrackRecord.__str__]) *)

Section Rendering.

(** [str(datetime)] of the [modified] timestamp. *)
Variable datetime_str : Z -> string.

(** [TrackRecord.__str__]: [None] when [self.target] does not resolve. *)
Definition track_record_dunder_str (s : Store) (a : TrackRecord.t)
    (modified : Z) : option string :=
  match TrackRecord.target_content_type a with
  | None => None
  | Some c =>
      match resolve s c (TrackRecord.target_object_id a) with
      | None => None
      | Some target_name =>
          Some ("[" ++ py_str target_name ++ "] "
                ++ py_str (TrackRecord.state_type a)
                ++ " has been changed from " ++ py_str (TrackRecord.from_state a)
                ++ " to " ++ py_str (TrackRecord.to_state a)
                ++ " at " ++ datetime_str modified)
      end
  end.

(** The builtin [str(record)]: [__str__] must return a [str], otherwise
    [TypeError: __str__ returned non-string]. *)
Definition track_record_str (s : Store) (a : TrackRecord.t) (modified : Z)
  : exc + string :=
  match track_record_dunder_str s a modified with
  | Some x => inr x
  | None => inl (PyException "TypeError")
  end.

End Rendering.

(** A persisted row read back as a model instance. *)
Definition row_instance (r : TrackRecordRow.t) : TrackRecord.t :=
  TrackRecord.mk (PyStr (TrackRecordRow.name r))
    (Some (TrackRecordRow.target_content_type r))
    (Some (TrackRecordRow.target_object_id r))
    (PyStr (TrackRecordRow.state_type r)) (PyStr (TrackRecordRow.from_state r))
    (PyStr (TrackRecordRow.to_state r)).

(** ** The admin listing ([CustomListFilter], [TrackRecordAdmin]) *)

(** Python objects a name can evaluate to in [CustomListFilter.queryset]. *)
Inductive pyobj :=
| ModelClass (c : content_type)
| OtherObject (what : string).

(** The names visible to [eval] inside [CustomListFilter.queryset]: its
    locals, then the globals of [homes/admin.py]. *)
Definition admin_scope : list (string * pyobj) :=
  [("self", OtherObject "CustomListFilter instance");
   ("request", OtherObject "HttpRequest");
   ("queryset", OtherObject "QuerySet");
   ("__name__", OtherObject "str"); ("__doc__", OtherObject "None");
   ("__package__", OtherObject "str"); ("__loader__", OtherObject "loader");
   ("__spec__", OtherObject "ModuleSpec"); ("__file__", OtherObject "str");
   ("__cached__", OtherObject "str"); ("__builtins__", OtherObject "dict");
   ("admin", OtherObject "module");
   ("ContentType", ModelClass CT_contenttype);
   ("House", ModelClass CT_house); ("Thermostat", ModelClass CT_thermostat);
   ("Room", ModelClass CT_room); ("Light", ModelClass CT_light);
   ("TrackRecord", ModelClass CT_trackrecord);
   ("CustomListFilter", OtherObject "class");
   ("TrackRecordAdmin", OtherObject "class")].

(** [eval(value)] when [value] is exactly a name of [admin_scope]; any other
    string is evaluated as an arbitrary Python expression, whose outcome is
    not modelled ([None]). *)
Definition eval_name (v : string) : option pyobj :=
  option_map snd (find (fun kv => String.eqb (fst kv) v) admin_scope).

Inductive query_result :=
| Rows (l : list TrackRecordRow.t)
| Raised (e : exc)
| ArbitraryCode.

Definition has_content_type (c : content_type) (r : TrackRecordRow.t) : bool :=
  content_type_eqb (TrackRecordRow.target_content_type r) c.

(** [CustomListFilter.queryset]: [ContentType.objects.get_for_model(x)]
    reads [x._meta], an [AttributeError] for objects that are not models. *)
Definition custom_list_filter_queryset (value : option string)
    (qs : list TrackRecordRow.t) : query_result :=
  match value with
  | None | Some "" => Rows qs
  | Some v =>
      match eval_name v with
      | Some (ModelClass c) => Rows (filter (has_content_type c) qs)
      | Some (OtherObject _) => Raised (PyException "AttributeError")
      | None => ArbitraryCode
      end
  end.

(** [ordering = ('-modified',)], to which the change list appends ['-pk']. *)
Definition listed_before (a b : TrackRecordRow.t) : bool :=
  (TrackRecordRow.modified b <? TrackRecordRow.modified a)
  || ((TrackRecordRow.modified a =? TrackRecordRow.modified b)
      && (TrackRecordRow.id b <=? TrackRecordRow.id a)).

Fixpoint insert_listed (r : TrackRecordRow.t) (l : list TrackRecordRow.t)
  : list TrackRecordRow.t :=
  match l with
  | [] => [r]
  | x :: l' => if listed_before r x then r :: x :: l' else x :: insert_listed r l'
  end.

(** [ORDER BY modified DESC, id DESC]. *)
Fixpoint order_listed (l : list TrackRecordRow.t) : list TrackRecordRow.t :=
  match l with
  | [] => []
  | x :: l' => insert_listed x (order_listed l')
  end.

(** The change list of [TrackRecordAdmin] with the equipment filter set to
    [value]. *)
Definition changelist (value : option string) (s : Store) : query_result :=
  match custom_list_filter_queryset value (track_records s) with
  | Rows l => Rows (order_listed l)
  | r => r
  end.

(** ** The test scenario of [test_0050] (thermostat) *)

Definition thermo1 : Thermostat.t :=
  Thermostat.mk (PyStr "Thermo1") 1 (PyStr "cool") (dec2 false 3000)
    (dec2 false 4500).

Definition store0 : Store :=
  mkstore [(1, House.mk (PyStr "Test House1"))] [] [] [(1, thermo1)] [] 0 0 1 0
    100 (fun n => n).

(** The instance the API's update builds: loaded from the database, then
    given the serializer's validated (quantized) values. *)
Definition thermo1_update : instance Thermostat.t :=
  mkinstance (Some 1)
    (Thermostat.mk (PyStr "Thermo1") 1 (PyStr "fan") (dec2 false 6600)
       (dec2 false 8900))
    thermo1.

Definition row_summary (r : TrackRecordRow.t) : string * string * string :=
  (TrackRecordRow.state_type r, TrackRecordRow.from_state r,
   TrackRecordRow.to_state r).

Example thermo1_update_records :
  map row_summary (track_records (snd (thermostat_save thermo1_update store0)))
  = [("Temperature", "30.00", "66.00");
     ("Temperature set point", "45.00", "89.00");
     ("Mode", "cool", "fan")].
Proof. reflexivity. Qed.

(** ** Expected outcomes *)

(** The TrackRecords an update save of a Thermostat creates, one per field
    whose tracker reports a change, in the order of the three [if]
    statements of [Thermostat.save]: label, old value, new value. *)
Definition thermostat_changes (i : instance Thermostat.t)
  : list (string * pyval * pyval) :=
  ((if has_changed i Thermostat.current_temperature
    then [("Temperature", previous i Thermostat.current_temperature,
           Thermostat.current_temperature (current i))] else [])
   ++ (if has_changed i Thermostat.temperature_set_point
       then [("Temperature set point",
              previous i Thermostat.temperature_set_point,
              Thermostat.temperature_set_point (current i))] else [])
   ++ (if has_changed i Thermostat.mode
       then [("Mode", previous i Thermostat.mode, Thermostat.mode (current i))]
       else []))%list.

(** The same for a Room. *)
Definition room_changes (i : instance Room.t) : list (string * pyval * pyval) :=
  if has_changed i Room.current_temperature
  then [("Temperature", previous i Room.current_temperature,
         Room.current_temperature (current i))]
  else [].

(** The same for a Light. *)
Definition light_changes (i : instance Light.t) : list (string * pyval * pyval) :=
  if has_changed i Light.state
  then [("State", previous i Light.state, Light.state (current i))]
  else [].

(** The TrackRecords of [changes] created one after the other, as
    [track] creates them. *)
Fixpoint track_each (nm : pyval) (c : content_type) (p : Z)
    (changes : list (string * pyval * pyval)) : M unit :=
  match changes with
  | [] => ret tt
  | (lbl, prev, cur) :: changes' => track nm c p lbl prev cur ;; track_each nm c p changes'
  end.

(** The fields of a row as the claims describe them. *)
Definition row_fields (r : TrackRecordRow.t)
  : string * content_type * Z * string * string * string :=
  (TrackRecordRow.name r, TrackRecordRow.target_content_type r,
   TrackRecordRow.target_object_id r, TrackRecordRow.state_type r,
   TrackRecordRow.from_state r, TrackRecordRow.to_state r).

(** The fields of the TrackRecords of [changes]. *)
Definition change_fields (nm : pyval) (c : content_type) (p : Z)
    (changes : list (string * pyval * pyval))
  : list (string * content_type * Z * string * string * string) :=
  map (fun '(lbl, prev, cur) => (py_str nm, c, p, lbl, py_str prev, py_str cur))
    changes.






(** * Lemmas *)

(** ** The monad *)

Lemma bind_inl {A B} (m : M A) (f : A -> M B) s e s' :
  m s = (inl e, s') -> bind m f s = (inl e, s').
Proof. unfold bind; intros ->; reflexivity. Qed.

Lemma bind_inr {A B} (m : M A) (f : A -> M B) s a s' :
  m s = (inr a, s') -> bind m f s = f a s'.
Proof. unfold bind; intros ->; reflexivity. Qed.

Lemma when_false (m : M unit) : when false m = ret tt.
Proof. reflexivity. Qed.

(** ** Tables *)

Lemma lookup_drop_key {A} (k : Z) (l : list (Z * A)) :
  lookup k (drop_key k l) = None.
Proof.
  induction l as [|[k' v] l IH]; simpl; [reflexivity|].
  destruct (k' =? k) eqn:E; simpl.
  - exact IH.
  - rewrite Z.eqb_sym, E. exact IH.
Qed.

Lemma filter_negb_empty {A} (f : A -> bool) (l : list A) :
  filter f (filter (fun x => negb (f x)) l) = [].
Proof.
  induction l as [|x l IH]; simpl; [reflexivity|].
  destruct (f x) eqn:E; simpl; [exact IH|]. rewrite E. exact IH.
Qed.

Lemma filter_length_split {A} (f : A -> bool) (l : list A) :
  (length (filter (fun x => negb (f x)) l) + length (filter f l) = length l)%nat.
Proof.
  induction l as [|x l IH]; simpl; [reflexivity|].
  destruct (f x); simpl; lia.
Qed.

(** ** The change list order *)

Lemma listed_before_total a b :
  listed_before a b = false -> listed_before b a = true.
Proof.
  unfold listed_before. intros H.
  apply orb_false_iff in H as [H1 H2].
  apply Z.ltb_ge in H1.
  apply orb_true_iff.
  destruct (Z.eq_dec (TrackRecordRow.modified a) (TrackRecordRow.modified b))
    as [E|E].
  - right. rewrite E, Z.eqb_refl in H2 |- *. simpl in *.
    apply Z.leb_gt in H2. apply Z.leb_le. lia.
  - left. apply Z.ltb_lt. lia.
Qed.

Definition listed_rel (a b : TrackRecordRow.t) : Prop := listed_before a b = true.

Lemma insert_listed_sorted r l :
  Sorted listed_rel l -> Sorted listed_rel (insert_listed r l).
Proof.
  induction 1 as [|x l Hs IH Hd]; simpl.
  - repeat constructor.
  - destruct (listed_before r x) eqn:E.
    + constructor; [constructor; assumption | constructor; exact E].
    + constructor; [exact IH|].
      apply listed_before_total in E.
      destruct l as [|y l]; simpl; [constructor; exact E|].
      inversion Hd; subst.
      destruct (listed_before r y); constructor; assumption.
Qed.

Lemma order_listed_sorted l : Sorted listed_rel (order_listed l).
Proof.
  induction l as [|x l IH]; simpl; [constructor|].
  apply insert_listed_sorted, IH.
Qed.

Lemma insert_listed_perm r l : Permutation (insert_listed r l) (r :: l).
Proof.
  induction l as [|x l IH]; simpl; [reflexivity|].
  destruct (listed_before r x); [reflexivity|].
  rewrite IH. apply perm_swap.
Qed.

Lemma order_listed_perm l : Permutation (order_listed l) l.
Proof.
  induction l as [|x l IH]; simpl; [reflexivity|].
  rewrite insert_listed_perm. apply perm_skip, IH.
Qed.

Lemma sorted_weaken {A} (R R' : A -> A -> Prop) l :
  (forall a b, R a b -> R' a b) -> Sorted R l -> Sorted R' l.
Proof.
  intros HR. induction 1 as [|x l Hs IH Hd]; constructor; [exact IH|].
  destruct Hd; constructor. apply HR. assumption.
Qed.

Lemma listed_rel_modified a b :
  listed_rel a b -> TrackRecordRow.modified b <= TrackRecordRow.modified a.
Proof.
  unfold listed_rel, listed_before. intros H.
  apply orb_true_iff in H as [H|H].
  - apply Z.ltb_lt in H. lia.
  - apply andb_true_iff in H as [H _]. apply Z.eqb_eq in H. lia.
Qed.

(** Most recent first. *)
Definition newest_first (a b : TrackRecordRow.t) : Prop :=
  TrackRecordRow.modified b <= TrackRecordRow.modified a.

Lemma order_listed_newest_first l : Sorted newest_first (order_listed l).
Proof.
  eapply sorted_weaken; [|apply order_listed_sorted].
  exact listed_rel_modified.
Qed.

(** ** Row writes *)

(** A part of the store that [timezone.now()], the table's rows and its
    sequence do not touch is left as it was by [super().save()]. *)
Lemma model_save_keeps {A B} (T : table A) (proj : Store -> B) i s :
  (forall s n, proj (advance n s) = proj s) ->
  (forall s l, proj (tbl_set_rows T s l) = proj s) ->
  (forall s n, proj (tbl_set_seq T s n) = proj s) ->
  proj (snd (model_save T i s)) = proj s.
Proof.
  intros Ha Hr Hq. unfold model_save. cbv zeta.
  destruct (pk i) as [p|];
    repeat match goal with
           | |- context [match ?x with _ => _ end] => destruct x
           end;
    cbn [snd]; rewrite ?Hr, ?Hq, ?Ha; reflexivity.
Qed.

(** * Claims *)

(** ** C3 *)

(** C3: the initial save of a Room, Light or Thermostat (an instance whose
    [pk] is [None]) creates no TrackRecord, whatever its field values and
    tracker snapshot. *)
Theorem initial_save_creates_no_track_record :
  forall s,
    (forall cur snap : Thermostat.t,
        track_records (snd (thermostat_save (mkinstance None cur snap) s))
        = track_records s)
    /\ (forall cur snap : Room.t,
        track_records (snd (room_save (mkinstance None cur snap) s))
        = track_records s)
    /\ (forall cur snap : Light.t,
        track_records (snd (light_save (mkinstance None cur snap) s))
        = track_records s).
Proof.
  intros s; repeat split; intros cur snap;
    cbn [thermostat_save room_save light_save pk bind ret];
    apply model_save_keeps; reflexivity.
Qed.

(** ** C7 *)

(** C7: an update save whose monitored fields are all [==] to their tracker
    snapshot (only [name] and the owning [house]/[room] may differ) leaves
    the TrackRecord table as it was. *)
Theorem update_of_name_or_owner_creates_no_track_record :
  forall s p,
    (forall cur snap : Thermostat.t,
        py_eq (Thermostat.current_temperature snap)
              (Thermostat.current_temperature cur) = true ->
        py_eq (Thermostat.temperature_set_point snap)
              (Thermostat.temperature_set_point cur) = true ->
        py_eq (Thermostat.mode snap) (Thermostat.mode cur) = true ->
        track_records (snd (thermostat_save (mkinstance (Some p) cur snap) s))
        = track_records s)
    /\ (forall cur snap : Room.t,
        py_eq (Room.current_temperature snap) (Room.current_temperature cur)
        = true ->
        track_records (snd (room_save (mkinstance (Some p) cur snap) s))
        = track_records s)
    /\ (forall cur snap : Light.t,
        py_eq (Light.state snap) (Light.state cur) = true ->
        track_records (snd (light_save (mkinstance (Some p) cur snap) s))
        = track_records s).
Proof.
  intros s p; repeat split; intros cur snap.
  - intros H1 H2 H3. unfold thermostat_save, has_changed; cbn [pk current snapshot].
    rewrite H1, H2, H3. cbn [negb when bind ret].
    apply model_save_keeps; reflexivity.
  - intros H. unfold room_save, has_changed; cbn [pk current snapshot].
    rewrite H. cbn [negb when bind ret].
    apply model_save_keeps; reflexivity.
  - intros H. unfold light_save, has_changed; cbn [pk current snapshot].
    rewrite H. cbn [negb when bind ret].
    apply model_save_keeps; reflexivity.
Qed.

Definition thermo1_renamed : instance Thermostat.t :=
  mkinstance (Some 1)
    (Thermostat.mk (PyStr "Thermo2") 2 (PyStr "cool") (PyInt 30)
       (dec2 false 4500))
    thermo1.

Definition room1 : Room.t := Room.mk (PyStr "Test Room1") 1 (dec2 false 3300).
Definition light1 : Light.t := Light.mk (PyStr "Test Light1") 1 (PyStr "on").

Lemma update_of_name_or_owner_creates_no_track_record_witness :
  track_records (snd (thermostat_save thermo1_renamed store0))
  = track_records store0
  /\ track_records
       (snd (room_save (mkinstance (Some 1)
                          (Room.mk (PyStr "Room 2") 2 (dec2 false 3300)) room1)
               store0)) = track_records store0
  /\ track_records
       (snd (light_save (mkinstance (Some 1)
                           (Light.mk (PyStr "Light 2") 2 (PyStr "on")) light1)
               store0)) = track_records store0.
Proof.
  split; [|split].
  - apply (proj1 (update_of_name_or_owner_creates_no_track_record store0 1));
      reflexivity.
  - apply (proj1 (proj2 (update_of_name_or_owner_creates_no_track_record
                           store0 1))); reflexivity.
  - apply (proj2 (proj2 (update_of_name_or_owner_creates_no_track_record
                           store0 1))); reflexivity.
Defined.

(** ** C5 *)

(** C5: deleting a Thermostat, Light or Room removes its row and every
    TrackRecord targeting it, in one step (the collector's single
    transaction); a Thermostat or Light deletion removes exactly those
    [N] records, a Room deletion at least them (its lights' records go
    too). *)
Theorem delete_cascades_to_track_records :
  forall s k,
    (lookup k (thermostats (thermostat_delete k s)) = None
     /\ filter (targets CT_thermostat k)
          (track_records (thermostat_delete k s)) = []
     /\ (length (track_records (thermostat_delete k s))
         + length (filter (targets CT_thermostat k) (track_records s))
         = length (track_records s))%nat)
    /\ (lookup k (lights (light_delete k s)) = None
     /\ filter (targets CT_light k) (track_records (light_delete k s)) = []
     /\ (length (track_records (light_delete k s))
         + length (filter (targets CT_light k) (track_records s))
         = length (track_records s))%nat)
    /\ (lookup k (rooms (room_delete k s)) = None
     /\ filter (targets CT_room k) (track_records (room_delete k s)) = []
     /\ (length (track_records (room_delete k s))
         + length (filter (targets CT_room k) (track_records s))
         <= length (track_records s))%nat).
Proof.
  intros s k. repeat split; cbn [thermostats lights rooms track_records
                                thermostat_delete light_delete room_delete
                                set_track_records set_thermostats set_lights
                                set_rooms];
    try apply lookup_drop_key; try apply filter_negb_empty;
    try apply filter_length_split.
  - set (ls := room_light_keys k s).
    induction (track_records s) as [|r l IH]; simpl; [reflexivity|].
    destruct (targets CT_room k r) eqn:E; simpl; [exact IH|].
    destruct (existsb (fun l0 => targets CT_light l0 r) ls); simpl;
      [exact IH|]. rewrite E. exact IH.
  - set (ls := room_light_keys k s).
    induction (track_records s) as [|r l IH]; simpl; [lia|].
    destruct (targets CT_room k r) eqn:E; simpl; [lia|].
    destruct (existsb (fun l0 => targets CT_light l0 r) ls); simpl; lia.
Qed.

(** ** C6 *)

(** C6: when the target of a TrackRecord does not resolve, [__str__] falls
    through its [if self.target:] and returns [None], so [str(record)]
    raises [TypeError] instead of yielding an empty display value. *)
Theorem str_of_unresolved_target_raises :
  forall datetime_str s nm c oid st fr to modified,
    resolve s c oid = None ->
    track_record_str datetime_str s (TrackRecord.mk nm (Some c) oid st fr to)
      modified = inl (PyException "TypeError").
Proof.
  intros datetime_str s nm c oid st fr to modified H.
  unfold track_record_str, track_record_dunder_str. cbn [TrackRecord.target_content_type
                                                        TrackRecord.target_object_id].
  rewrite H. reflexivity.
Qed.

(** A stale record: [TrackRecord(target_content_type=<room>,
    target_object_id=10, ...)] while no Room 10 exists. *)
Definition stale_record : TrackRecord.t :=
  TrackRecord.mk (PyStr "Track Room") (Some CT_room) (Some 10) (PyStr "State")
    (PyStr "on") (PyStr "off").

Lemma str_of_unresolved_target_raises_witness :
  resolve store0 CT_room (Some 10) = None
  /\ track_record_str int_str store0 stale_record 0
     = inl (PyException "TypeError").
Proof.
  split; [reflexivity|].
  apply str_of_unresolved_target_raises. reflexivity.
Defined.

(** ** C8 *)

(** C8: the TrackRecord change list filtered by ["Light"], ["Room"] or
    ["Thermostat"] holds exactly the records of that target type, unfiltered
    it holds every record; in each case most recently modified first. *)
Theorem changelist_filters_and_orders :
  forall s,
    (exists l, changelist (Some "Light") s = Rows l
       /\ Permutation l (filter (has_content_type CT_light) (track_records s))
       /\ Sorted newest_first l)
    /\ (exists l, changelist (Some "Room") s = Rows l
       /\ Permutation l (filter (has_content_type CT_room) (track_records s))
       /\ Sorted newest_first l)
    /\ (exists l, changelist (Some "Thermostat") s = Rows l
       /\ Permutation l
            (filter (has_content_type CT_thermostat) (track_records s))
       /\ Sorted newest_first l)
    /\ (exists l, changelist None s = Rows l
       /\ Permutation l (track_records s)
       /\ Sorted newest_first l).
Proof.
  intros s.
  repeat split;
    eexists; (split; [reflexivity|]);
    split; (apply order_listed_perm || apply order_listed_newest_first).
Qed.

(** ** C10 *)

Definition three_records : list TrackRecordRow.t :=
  [TrackRecordRow.mk 1 "Test Room1" CT_room 1 "Temperature" "30" "40" 100 100;
   TrackRecordRow.mk 2 "Test Light1" CT_light 1 "State" "on" "off" 101 101;
   TrackRecordRow.mk 3 "Thermo1" CT_thermostat 1 "Temperature" "30" "20" 102 102].

(** C10 (counterexample): ["House"] is not one of the three equipment
    names, yet the filter returns a (filtered, empty) result set. *)
Lemma filter_house_returns_rows :
  ~ In "House" ["Light"; "Room"; "Thermostat"]
  /\ custom_list_filter_queryset (Some "House") three_records = Rows [].
Proof.
  split; [simpl; intuition discriminate|reflexivity].
Qed.

(** C10 (amended): a non-empty filter value is [eval]uated; a result set
    comes back only when the value evaluates to a model class, and then it
    holds the records of that class's content type; names of non-model
    objects raise [AttributeError], and any other string runs as a Python
    expression. *)
Theorem filter_value_is_evaluated :
  forall qs,
    (forall v l, v <> "" ->
       custom_list_filter_queryset (Some v) qs = Rows l ->
       exists c, eval_name v = Some (ModelClass c)
                 /\ l = filter (has_content_type c) qs)
    /\ (forall v what, eval_name v = Some (OtherObject what) ->
          custom_list_filter_queryset (Some v) qs
          = Raised (PyException "AttributeError"))
    /\ (forall v, v <> "" -> eval_name v = None ->
          custom_list_filter_queryset (Some v) qs = ArbitraryCode)
    /\ custom_list_filter_queryset (Some "House") qs
       = Rows (filter (has_content_type CT_house) qs)
    /\ custom_list_filter_queryset (Some "TrackRecord") qs
       = Rows (filter (has_content_type CT_trackrecord) qs)
    /\ custom_list_filter_queryset (Some "ContentType") qs
       = Rows (filter (has_content_type CT_contenttype) qs).
Proof.
  intros qs. repeat split.
  - intros v l Hv H. unfold custom_list_filter_queryset in H.
    destruct v as [|ch v']; [contradiction|].
    destruct (eval_name (String ch v')) as [[c|what]|]; try discriminate.
    injection H as <-. eexists; split; reflexivity.
  - intros v what H. unfold custom_list_filter_queryset.
    destruct v as [|ch v']; [discriminate|]. rewrite H. reflexivity.
  - intros v Hv H. unfold custom_list_filter_queryset.
    destruct v as [|ch v']; [contradiction|]. rewrite H. reflexivity.
Qed.

Lemma filter_value_is_evaluated_witness :
  (exists c, eval_name "Light" = Some (ModelClass c)
             /\ filter (has_content_type CT_light) three_records
                = filter (has_content_type c) three_records)
  /\ custom_list_filter_queryset (Some "admin") three_records
     = Raised (PyException "AttributeError")
  /\ custom_list_filter_queryset (Some "__import__('os')") three_records
     = ArbitraryCode.
Proof.
  split; [|split].
  - apply (proj1 (filter_value_is_evaluated three_records) "Light");
      [discriminate | reflexivity].
  - apply (proj1 (proj2 (filter_value_is_evaluated three_records)) "admin"
             "module"). reflexivity.
  - apply (proj1 (proj2 (proj2 (filter_value_is_evaluated three_records))));
      [discriminate | reflexivity].
Defined.

(** ** C2 *)

Definition store1 : Store :=
  mkstore [(1, House.mk (PyStr "Test House1"))] [(1, room1)] [(1, light1)]
    [(1, thermo1)] [] 1 1 1 0 100 (fun n => n).




(** ** Lemmas on the save hooks *)

(** A [when ... (track ...)] step either raises a [ValidationError] without
    writing, does nothing, or inserts one TrackRecord. *)
Definition step_shape (m : M unit) : Prop :=
  forall s,
    (exists errs, m s = (inl (ValidationError errs), s))
    \/ m s = (inr tt, s)
    \/ (exists r, m s = (inr tt, tick (set_track_records s
                                        (track_records s ++ [r])%list))).

Lemma track_shape nm c p lbl prev cur : step_shape (track nm c p lbl prev cur).
Proof.
  intros s. unfold track, bind, track_record_create, track_record_full_clean,
    track_record_clean. cbn [TrackRecord.target_content_type].
  destruct (resolve s c _);
    [destruct (track_record_clean_fields _ ++ [])%list eqn:E
    |destruct (track_record_clean_fields _ ++ _)%list eqn:E];
    try (right; right; eexists; reflexivity);
    try (left; eexists; reflexivity).
Qed.

Lemma when_shape b m : step_shape m -> step_shape (when b m).
Proof. intros H s. destruct b; [apply H | right; left; reflexivity]. Qed.

Lemma bind_ext {A B} (m1 m2 : M A) (f1 f2 : A -> M B) s :
  (forall s, m1 s = m2 s) -> (forall a s, f1 a s = f2 a s) ->
  bind m1 f1 s = bind m2 f2 s.
Proof.
  intros Hm Hf. unfold bind. rewrite Hm.
  destruct (m2 s) as [[e|a] s']; [reflexivity|apply Hf].
Qed.

Lemma bind_assoc {A B C} (m : M A) (f : A -> M B) (g : B -> M C) s :
  bind (bind m f) g s = bind m (fun a => bind (f a) g) s.
Proof. unfold bind. destruct (m s) as [[e|a] s']; reflexivity. Qed.

Lemma track_each_app nm c p l1 l2 (k : M unit) s :
  (track_each nm c p (l1 ++ l2) ;; k) s
  = (track_each nm c p l1 ;; (track_each nm c p l2 ;; k)) s.
Proof.
  revert s. induction l1 as [|[[lbl a] b] l1 IH]; intros s; [reflexivity|].
  cbn [app track_each]. rewrite !bind_assoc.
  apply bind_ext; [reflexivity|]. intros _ s'. apply IH.
Qed.

Lemma when_track_each nm c p lbl a b (flag : bool) (k : M unit) s :
  (when flag (track nm c p lbl a b) ;; k) s
  = (track_each nm c p (if flag then [(lbl, a, b)] else []) ;; k) s.
Proof.
  destruct flag; [|reflexivity]. cbn [when track_each]. rewrite bind_assoc.
  reflexivity.
Qed.

(** An update save creates the TrackRecords of its changes, then writes
    the row. *)
Lemma thermostat_save_steps p cur snap s :
  let i := mkinstance (Some p) cur snap in
  thermostat_save i s
  = (track_each (Thermostat.name cur) CT_thermostat p (thermostat_changes i) ;;
     model_save thermostat_table i) s.
Proof.
  intros i; subst i. unfold thermostat_save, thermostat_changes. cbn [pk current].
  rewrite when_track_each.
  rewrite track_each_app. apply bind_ext; [reflexivity|]. intros _ s1.
  rewrite when_track_each.
  rewrite track_each_app. apply bind_ext; [reflexivity|]. intros _ s2.
  rewrite when_track_each. reflexivity.
Qed.

Lemma room_save_steps p cur snap s :
  let i := mkinstance (Some p) cur snap in
  room_save i s
  = (track_each (Room.name cur) CT_room p (room_changes i) ;;
     model_save room_table i) s.
Proof.
  intros i; subst i. unfold room_save, room_changes. cbn [pk current].
  apply when_track_each.
Qed.

Lemma light_save_steps p cur snap s :
  let i := mkinstance (Some p) cur snap in
  light_save i s
  = (track_each (Light.name cur) CT_light p (light_changes i) ;;
     model_save light_table i) s.
Proof.
  intros i; subst i. unfold light_save, light_changes. cbn [pk current].
  apply when_track_each.
Qed.

(** A TrackRecord creation that fails writes nothing. *)
Lemma track_fail_keeps nm c p lbl a b s e s' :
  track nm c p lbl a b s = (inl e, s') -> s' = s.
Proof.
  intros H. destruct (track_shape nm c p lbl a b s) as [[errs E]|[E|[r E]]];
    rewrite E in H; congruence.
Qed.

(** A TrackRecord creation that succeeds appends the row of its change. *)
Lemma track_success nm c p lbl a b s u s' :
  track nm c p lbl a b s = (inr u, s') ->
  exists r, s' = tick (set_track_records s (track_records s ++ [r])%list)
            /\ row_fields r = (py_str nm, c, p, lbl, py_str a, py_str b).
Proof.
  unfold track, bind, track_record_create.
  destruct (track_record_full_clean s _); intros H; [discriminate|].
  injection H as _ <-. eexists. split; reflexivity.
Qed.

(** Creating the TrackRecords of [changes] touches no other table and
    appends their rows. *)
Lemma track_each_success nm c p changes s u s1 :
  track_each nm c p changes s = (inr u, s1) ->
  houses s1 = houses s /\ rooms s1 = rooms s /\ lights s1 = lights s
  /\ thermostats s1 = thermostats s
  /\ exists rows, track_records s1 = (track_records s ++ rows)%list
                  /\ map row_fields rows = change_fields nm c p changes.
Proof.
  revert s. induction changes as [|[[lbl a] b] changes IH]; intros s H.
  - injection H as _ <-. do 4 (split; [reflexivity|]).
    exists []. rewrite app_nil_r. split; reflexivity.
  - cbn [track_each] in H. unfold bind at 1 in H.
    destruct (track nm c p lbl a b s) as [[e|u0] s0] eqn:E; [discriminate|].
    destruct (track_success _ _ _ _ _ _ _ _ _ E) as (r & -> & Hr).
    destruct (IH _ H) as (H1 & H2 & H3 & H4 & rows & H5 & H6).
    do 4 (split; [assumption|]).
    exists (r :: rows). rewrite H5. cbn [track_records tick set_track_records].
    rewrite <- app_assoc. split; [reflexivity|].
    cbn [map change_fields]. rewrite Hr. f_equal. exact H6.
Qed.

(** A TrackRecord creation that fails after the creations of [pre] makes
    the whole save fail there. *)
Lemma track_each_fails nm c p pre lbl a b post (k : M unit) s s1 e :
  track_each nm c p pre s = (inr tt, s1) ->
  fst (track nm c p lbl a b s1) = inl e ->
  (track_each nm c p (pre ++ (lbl, a, b) :: post) ;; k) s = (inl e, s1).
Proof.
  intros H1 H2. rewrite track_each_app, (bind_inr _ _ _ _ _ H1).
  cbn [track_each]. rewrite bind_assoc.
  destruct (track nm c p lbl a b s1) as [[e'|u] s2] eqn:E; cbn [fst] in H2;
    [|discriminate].
  injection H2 as ->. rewrite (track_fail_keeps _ _ _ _ _ _ _ _ _ E) in E.
  apply bind_inl, E.
Qed.

(** A row write that fails leaves the table's rows as they were. *)
Lemma model_save_fail_rows {A} (T : table A) i s e s' :
  (forall s n, tbl_rows T (advance n s) = tbl_rows T s) ->
  (forall s n, tbl_rows T (tbl_set_seq T s n) = tbl_rows T s) ->
  model_save T i s = (inl e, s') -> tbl_rows T s' = tbl_rows T s.
Proof.
  intros Ha Hq. unfold model_save. cbv zeta.
  destruct (pk i) as [p|];
    repeat match goal with
           | |- context [match ?x with _ => _ end] => destruct x
           end;
    intros H; try discriminate; injection H as _ <-;
    rewrite ?Hq, ?Ha; reflexivity.
Qed.

(** The failures of an update save that creates the TrackRecords of
    [changes], then writes the row of table [T]. *)
Lemma record_failures {A} (T : table A) (save : M unit) nm c p changes i s :
  (forall s, save s = (track_each nm c p changes ;; model_save T i) s) ->
  (forall s s', houses s' = houses s -> rooms s' = rooms s ->
     lights s' = lights s -> thermostats s' = thermostats s ->
     tbl_rows T s' = tbl_rows T s) ->
  (forall s n, tbl_rows T (advance n s) = tbl_rows T s) ->
  (forall s n, tbl_rows T (tbl_set_seq T s n) = tbl_rows T s) ->
  (forall s l, track_records (tbl_set_rows T s l) = track_records s) ->
  (forall s n, track_records (tbl_set_seq T s n) = track_records s) ->
  (forall pre lbl prev new post s1 e,
     changes = (pre ++ (lbl, prev, new) :: post)%list ->
     track_each nm c p pre s = (inr tt, s1) ->
     fst (track nm c p lbl prev new s1) = inl e ->
     save s = (inl e, s1) /\ tbl_rows T s1 = tbl_rows T s
     /\ exists rows, track_records s1 = (track_records s ++ rows)%list
                     /\ map row_fields rows = change_fields nm c p pre)
  /\ (forall s1 e s2,
     track_each nm c p changes s = (inr tt, s1) ->
     model_save T i s1 = (inl e, s2) ->
     save s = (inl e, s2) /\ tbl_rows T s2 = tbl_rows T s
     /\ exists rows, track_records s2 = (track_records s ++ rows)%list
                     /\ map row_fields rows = change_fields nm c p changes).
Proof.
  intros Hs Hk Ha Hq Hr' Hq'. split.
  - intros pre lbl prev new post s1 e -> H1 H2.
    destruct (track_each_success _ _ _ _ _ _ _ H1)
      as (E1 & E2 & E3 & E4 & rows & R1 & R2).
    split; [rewrite Hs; apply track_each_fails; assumption|].
    split; [apply Hk; assumption|]. exists rows; split; assumption.
  - intros s1 e s2 H1 H2.
    destruct (track_each_success _ _ _ _ _ _ _ H1)
      as (E1 & E2 & E3 & E4 & rows & R1 & R2).
    split; [rewrite Hs, (bind_inr _ _ _ _ _ H1); exact H2|].
    split; [rewrite (model_save_fail_rows T i s1 e s2 Ha Hq H2); apply Hk; assumption|].
    exists rows. split; [|assumption].
    replace s2 with (snd (model_save T i s1)) by (rewrite H2; reflexivity).
    rewrite model_save_keeps; [assumption|reflexivity|assumption|assumption].
Qed.







(** ** Lemmas on validation *)






(** ** C9 *)




(** ** C4 *)

(** An update whose first TrackRecord is valid and whose second is not
    ([str(Decimal('-100.00'))] has 7 characters). *)
Definition thermo1_partial : instance Thermostat.t :=
  mkinstance (Some 1)
    (Thermostat.mk (PyStr "Thermo1") 1 (PyStr "cool") (dec2 false 6600)
       (dec2 true 10000))
    thermo1.

(** C4 (counterexample): the save raises, the thermostat row keeps its old
    values, but the TrackRecord of the first change stays persisted. *)
Lemma partial_update_leaves_track_record :
  (exists errs, fst (thermostat_save thermo1_partial store0)
                = inl (ValidationError errs))
  /\ map row_summary (track_records (snd (thermostat_save thermo1_partial store0)))
     = [("Temperature", "30.00", "66.00")]
  /\ lookup 1 (thermostats (snd (thermostat_save thermo1_partial store0)))
     = Some thermo1.
Proof. split; [eexists; reflexivity | split; reflexivity]. Qed.

(** C4 (amended): when creating a TrackRecord fails during an update save,
    the exception propagates from [save()] at once and the entity row is not
    written, but the TrackRecords the same save created before the failing
    one stay persisted with the fields of their changes (no transaction
    wraps the save).  When the TrackRecords were all created and the row
    write of [super().save()] fails, the row is not written and all of them
    stay.  This holds for a Thermostat (up to three TrackRecords), a Room
    and a Light (one each, so a failed creation writes nothing). *)
Theorem failed_update_keeps_earlier_writes :
  (forall s p cur snap,
     let i := mkinstance (Some p) cur snap in
     let nm := Thermostat.name cur in
     (forall pre lbl prev new post s1 e,
        thermostat_changes i = (pre ++ (lbl, prev, new) :: post)%list ->
        track_each nm CT_thermostat p pre s = (inr tt, s1) ->
        fst (track nm CT_thermostat p lbl prev new s1) = inl e ->
        thermostat_save i s = (inl e, s1)
        /\ thermostats s1 = thermostats s
        /\ exists rows, track_records s1 = (track_records s ++ rows)%list
                        /\ map row_fields rows
                           = change_fields nm CT_thermostat p pre)
     /\ (forall s1 e s2,
        track_each nm CT_thermostat p (thermostat_changes i) s = (inr tt, s1) ->
        model_save thermostat_table i s1 = (inl e, s2) ->
        thermostat_save i s = (inl e, s2)
        /\ thermostats s2 = thermostats s
        /\ exists rows, track_records s2 = (track_records s ++ rows)%list
                        /\ map row_fields rows
                           = change_fields nm CT_thermostat p (thermostat_changes i)))
  /\ (forall s p cur snap,
     let i := mkinstance (Some p) cur snap in
     let nm := Room.name cur in
     (forall pre lbl prev new post s1 e,
        room_changes i = (pre ++ (lbl, prev, new) :: post)%list ->
        track_each nm CT_room p pre s = (inr tt, s1) ->
        fst (track nm CT_room p lbl prev new s1) = inl e ->
        room_save i s = (inl e, s1)
        /\ rooms s1 = rooms s
        /\ exists rows, track_records s1 = (track_records s ++ rows)%list
                        /\ map row_fields rows = change_fields nm CT_room p pre)
     /\ (forall s1 e s2,
        track_each nm CT_room p (room_changes i) s = (inr tt, s1) ->
        model_save room_table i s1 = (inl e, s2) ->
        room_save i s = (inl e, s2)
        /\ rooms s2 = rooms s
        /\ exists rows, track_records s2 = (track_records s ++ rows)%list
                        /\ map row_fields rows
                           = change_fields nm CT_room p (room_changes i)))
  /\ (forall s p cur snap,
     let i := mkinstance (Some p) cur snap in
     let nm := Light.name cur in
     (forall pre lbl prev new post s1 e,
        light_changes i = (pre ++ (lbl, prev, new) :: post)%list ->
        track_each nm CT_light p pre s = (inr tt, s1) ->
        fst (track nm CT_light p lbl prev new s1) = inl e ->
        light_save i s = (inl e, s1)
        /\ lights s1 = lights s
        /\ exists rows, track_records s1 = (track_records s ++ rows)%list
                        /\ map row_fields rows = change_fields nm CT_light p pre)
     /\ (forall s1 e s2,
        track_each nm CT_light p (light_changes i) s = (inr tt, s1) ->
        model_save light_table i s1 = (inl e, s2) ->
        light_save i s = (inl e, s2)
        /\ lights s2 = lights s
        /\ exists rows, track_records s2 = (track_records s ++ rows)%list
                        /\ map row_fields rows
                           = change_fields nm CT_light p (light_changes i))).
Proof.
  split; [|split]; intros s p cur snap i nm.
  - apply (record_failures thermostat_table); try (intros; reflexivity).
    + intros s0. apply thermostat_save_steps.
    + intros s0 s0' _ _ _ H. exact H.
  - apply (record_failures room_table); try (intros; reflexivity).
    + intros s0. apply room_save_steps.
    + intros s0 s0' _ H _ _. exact H.
  - apply (record_failures light_table); try (intros; reflexivity).
    + intros s0. apply light_save_steps.
    + intros s0 s0' _ _ H _. exact H.
Qed.

Definition room1_cold : instance Room.t :=
  mkinstance (Some 1) (Room.mk (PyStr "Test Room1") 1 (dec2 true 99999)) room1.

(** A light given an empty name: its TrackRecord's [name] is blank. *)
Definition light1_unnamed : instance Light.t :=
  mkinstance (Some 1) (Light.mk (PyStr "") 1 (PyStr "off")) light1.

(** The scenario's thermostat given the [int] 1000: its TrackRecord
    ([from_state] "30.00", [to_state] "1000") validates, then quantizing
    [Decimal(1000)] to two places needs 6 digits. *)
Definition thermo1_too_hot : instance Thermostat.t :=
  mkinstance (Some 1)
    (Thermostat.mk (PyStr "Thermo1") 1 (PyStr "cool") (PyInt 1000)
       (dec2 false 4500))
    thermo1.

(** Rooms and lights moved to a house or room that does not exist. *)
Definition room1_moved : instance Room.t :=
  mkinstance (Some 1) (Room.mk (PyStr "Test Room1") 99 (dec2 false 3400)) room1.

Definition light1_moved : instance Light.t :=
  mkinstance (Some 1) (Light.mk (PyStr "Test Light1") 99 (PyStr "off")) light1.

Lemma failed_update_keeps_earlier_writes_witness :
  (exists e s1,
     thermostat_save thermo1_partial store0 = (inl e, s1)
     /\ thermostats s1 = thermostats store0
     /\ exists rows, track_records s1 = (track_records store0 ++ rows)%list
                     /\ map row_fields rows
                        = [("Thermo1", CT_thermostat, 1, "Temperature", "30.00",
                            "66.00")])
  /\ (exists e s2,
        thermostat_save thermo1_too_hot store0 = (inl e, s2)
        /\ thermostats s2 = thermostats store0
        /\ exists rows, track_records s2 = (track_records store0 ++ rows)%list
                        /\ map row_fields rows
                           = [("Thermo1", CT_thermostat, 1, "Temperature",
                               "30.00", "1000")])
  /\ (exists e, room_save room1_cold store1 = (inl e, store1))
  /\ (exists e s2, room_save room1_moved store1 = (inl e, s2)
                   /\ rooms s2 = rooms store1)
  /\ (exists e, light_save light1_unnamed store1 = (inl e, store1))
  /\ (exists e s2, light_save light1_moved store1 = (inl e, s2)
                   /\ lights s2 = lights store1).
Proof.
  split; [|split; [|split; [|split; [|split]]]].
  - eexists _, _.
    exact (proj1 (proj1 failed_update_keeps_earlier_writes store0 1
                    (current thermo1_partial) (snapshot thermo1_partial))
             [("Temperature", dec2 false 3000, dec2 false 6600)]
             "Temperature set point" (dec2 false 4500) (dec2 true 10000) []
             (snd (track_each (PyStr "Thermo1") CT_thermostat 1
                     [("Temperature", dec2 false 3000, dec2 false 6600)] store0))
             _ eq_refl eq_refl eq_refl).
  - eexists _, _.
    exact (proj2 (proj1 failed_update_keeps_earlier_writes store0 1
                    (current thermo1_too_hot) (snapshot thermo1_too_hot))
             (snd (track_each (PyStr "Thermo1") CT_thermostat 1
                     (thermostat_changes thermo1_too_hot) store0))
             _ _ eq_refl eq_refl).
  - eexists.
    exact (proj1 (proj1 (proj1 (proj2 failed_update_keeps_earlier_writes) store1 1
                           (current room1_cold) (snapshot room1_cold))
                    [] "Temperature" (dec2 false 3300) (dec2 true 99999) []
                    store1 _ eq_refl eq_refl eq_refl)).
  - eexists _, _.
    destruct (proj2 (proj1 (proj2 failed_update_keeps_earlier_writes) store1 1
                       (current room1_moved) (snapshot room1_moved))
                (snd (track_each (PyStr "Test Room1") CT_room 1
                        (room_changes room1_moved) store1))
                _ _ eq_refl eq_refl) as (H1 & H2 & _).
    split; [exact H1|exact H2].
  - eexists.
    exact (proj1 (proj1 (proj2 (proj2 failed_update_keeps_earlier_writes) store1 1
                           (current light1_unnamed) (snapshot light1_unnamed))
                    [] "State" (PyStr "on") (PyStr "off") []
                    store1 _ eq_refl eq_refl eq_refl)).
  - eexists _, _.
    destruct (proj2 (proj2 (proj2 failed_update_keeps_earlier_writes) store1 1
                       (current light1_moved) (snapshot light1_moved))
                (snd (track_each (PyStr "Test Light1") CT_light 1
                        (light_changes light1_moved) store1))
                _ _ eq_refl eq_refl) as (H1 & H2 & _).
    split; [exact H1|exact H2].
Defined.

(** ** Rendering with two fraction digits *)

















(** ** Lemmas on successful TrackRecord creation *)



Lemma resolve_after_insert s l c o :
  c <> CT_trackrecord ->
  resolve (tick (set_track_records s l)) c o = resolve s c o.
Proof. intros H. destruct o, c; try reflexivity. contradiction. Qed.



(** ** C1 *)






(** * Further properties of the code *)

(** ** The serializers' method fields *)

(** [HouseSerializer.get_thermostats]:
    [Thermostat.objects.filter(house__id=obj.id)], ids in table order. *)
Definition get_thermostats (s : Store) (obj_id : Z) : list Z :=
  map fst (filter (fun kv => Thermostat.house (snd kv) =? obj_id)
             (thermostats s)).

(** [HouseSerializer.get_rooms]. *)
Definition get_rooms (s : Store) (obj_id : Z) : list Z :=
  map fst (filter (fun kv => Room.house (snd kv) =? obj_id) (rooms s)).

(** [RoomSerializer.get_lights]: the query behind [room.lights]. *)
Definition get_lights (s : Store) (obj_id : Z) : list Z :=
  room_light_keys obj_id s.

(** ** Well-formed stores *)

(** [timezone.now()] never goes back. *)
Definition time_monotone (s : Store) : Prop :=
  forall m n, m <= n -> time_at s m <= time_at s n.

(** The TrackRecord table is well formed: primary keys are distinct, and
    every row was created no later than it was last modified, which is no
    later than the last value [timezone.now()] returned. *)
Definition track_records_wf (s : Store) : Prop :=
  NoDup (map TrackRecordRow.id (track_records s))
  /\ Forall (fun r => TrackRecordRow.created r <= TrackRecordRow.modified r
                      /\ TrackRecordRow.modified r <= time_at s (clock s - 1))
       (track_records s).

(** A table whose writes leave the TrackRecord table and the clock alone. *)
Definition keeps_records {A} (T : table A) : Prop :=
  (forall s l, track_records (tbl_set_rows T s l) = track_records s
               /\ time_at (tbl_set_rows T s l) = time_at s
               /\ clock (tbl_set_rows T s l) = clock s)
  /\ (forall s n, track_records (tbl_set_seq T s n) = track_records s
                  /\ time_at (tbl_set_seq T s n) = time_at s
                  /\ clock (tbl_set_seq T s n) = clock s).


(** [f] holds on the [k] numbers from [c] on. *)
Fixpoint all_from (k : nat) (c : N) (f : N -> bool) : bool :=
  match k with
  | O => true
  | S k' => f c && all_from k' (N.succ c) f
  end.

(** [str()] of the two-place decimal [±c * 10^-2] fits [max_length=6]
    exactly when it is not [-100.00] or below. *)
Definition fits_ok (neg : bool) (c : N) : bool :=
  Bool.eqb (Nat.leb (String.length (py_str (dec2 neg c))) 6)
    (negb (neg && (10000 <=? c)%N)).

(** ** Lemmas *)

Lemma bind_ret {A B} (a : A) (f : A -> M B) s : bind (ret a) f s = f a s.
Proof. reflexivity. Qed.

(** Python's [==] is reflexive except on a NaN. *)
Lemma py_eq_refl v : v <> PyNaN -> py_eq v v = true.
Proof.
  destruct v as [|x|z|d|]; simpl; intros H.
  - reflexivity.
  - apply String.eqb_refl.
  - apply Z.eqb_refl.
  - unfold num_eqb. rewrite Z.min_id, Z.sub_diag. apply Z.eqb_refl.
  - contradiction.
Qed.

Lemma max_track_record_id_above l :
  Forall (fun r => TrackRecordRow.id r <= max_track_record_id l) l.
Proof.
  unfold max_track_record_id.
  induction l as [|r l IH]; cbn [fold_right]; constructor.
  - apply Z.le_max_l.
  - eapply Forall_impl; [|exact IH]. intros x H. cbv beta in H.
    pose proof (Z.le_max_r (TrackRecordRow.id r)
      (fold_right (fun r m => Z.max (TrackRecordRow.id r) m) 0 l)). lia.
Qed.

Lemma max_track_record_id_nonneg l : 0 <= max_track_record_id l.
Proof.
  unfold max_track_record_id.
  induction l as [|r l IH]; cbn [fold_right]; lia.
Qed.

Lemma max_track_record_id_app l r :
  max_track_record_id (l ++ [r])%list
  = Z.max (max_track_record_id l) (Z.max (TrackRecordRow.id r) 0).
Proof.
  unfold max_track_record_id.
  induction l as [|x l IH]; cbn [app fold_right]; lia.
Qed.

Lemma next_track_record_id_fresh s :
  ~ In (next_track_record_id s) (map TrackRecordRow.id (track_records s)).
Proof.
  intros H. apply in_map_iff in H as (r & E & Hr).
  pose proof (proj1 (Forall_forall _ _)
                (max_track_record_id_above (track_records s)) r Hr) as H'.
  cbv beta in H'. unfold next_track_record_id in E. lia.
Qed.

Lemma NoDup_map_filter {A B} (g : A -> B) (f : A -> bool) l :
  NoDup (map g l) -> NoDup (map g (filter f l)).
Proof.
  induction l as [|x l IH]; simpl; [auto|].
  intros H. inversion H as [|y m Hy Hm]; subst.
  destruct (f x); simpl; [|apply IH, Hm].
  constructor; [|apply IH, Hm].
  intros Hin. apply Hy. apply in_map_iff in Hin as (z & Ez & Hz).
  apply filter_In in Hz as [Hz _]. rewrite <- Ez. apply in_map, Hz.
Qed.

Lemma Forall_filter_sub {A} (P : A -> Prop) (f : A -> bool) l :
  Forall P l -> Forall P (filter f l).
Proof.
  intros H. apply Forall_forall. intros x Hx.
  apply filter_In in Hx as [Hx _]. exact (proj1 (Forall_forall _ _) H x Hx).
Qed.

Lemma wf_later s s' :
  time_monotone s -> track_records s' = track_records s ->
  time_at s' = time_at s -> clock s <= clock s' ->
  track_records_wf s -> track_records_wf s'.
Proof.
  intros Hm E1 E2 Hc [H1 H2]. unfold track_records_wf. rewrite E1, E2.
  split; [exact H1|].
  eapply Forall_impl; [|exact H2]. intros r [A B]. split; [exact A|].
  pose proof (Hm (clock s - 1) (clock s' - 1) ltac:(lia)). lia.
Qed.

Lemma wf_filter s s' f :
  track_records s' = filter f (track_records s) -> clock s' = clock s ->
  time_at s' = time_at s -> track_records_wf s -> track_records_wf s'.
Proof.
  intros E1 E2 E3 [H1 H2]. unfold track_records_wf. rewrite E1, E2, E3. split.
  - apply NoDup_map_filter, H1.
  - apply Forall_filter_sub, H2.
Qed.

Lemma create_wf a s :
  time_monotone s -> track_records_wf s ->
  track_records_wf (snd (track_record_create a s)).
Proof.
  intros Hm [H1 H2]. unfold track_record_create.
  destruct (track_record_full_clean s a); [split; assumption|].
  cbn [snd]. unfold track_records_wf.
  cbn [tick set_track_records track_records clock time_at]. split.
  - rewrite map_app. cbn [map].
    apply (Permutation_NoDup (Permutation_cons_append _ _)).
    constructor; [|exact H1].
    apply next_track_record_id_fresh.
  - apply Forall_app. split.
    + eapply Forall_impl; [|exact H2]. intros r [E L]. split; [exact E|].
      pose proof (Hm (clock s - 1) (clock s + 2 - 1) ltac:(lia)). lia.
    + constructor; [|constructor].
      cbn [track_record_row TrackRecordRow.created TrackRecordRow.modified].
      split; apply Hm; lia.
Qed.

Lemma track_create nm c p lbl prev cur s :
  snd (track nm c p lbl prev cur s)
  = snd (track_record_create
           (TrackRecord.mk nm (Some c) (Some p) (PyStr lbl) prev cur) s).
Proof.
  unfold track, bind. destruct (track_record_create _ s) as [[e|r] s'];
    reflexivity.
Qed.

(** An invariant kept by both halves of a [bind] is kept by the [bind]. *)
Lemma bind_inv (I : Store -> Prop) {A B} (m : M A) (f : A -> M B) s :
  (forall s, I s -> I (snd (m s))) ->
  (forall a s, I s -> I (snd (f a s))) ->
  I s -> I (snd (bind m f s)).
Proof.
  intros Hm Hf H. specialize (Hm s H). unfold bind.
  destruct (m s) as [[e|a] s']; [exact Hm | apply Hf, Hm].
Qed.

Lemma when_inv (I : Store -> Prop) b m :
  (forall s, I s -> I (snd (m s))) -> forall s, I s -> I (snd (when b m s)).
Proof. intros Hm s H. destruct b; [apply Hm, H | exact H]. Qed.

(** A step writes only the TrackRecord table and the clock. *)
Lemma shape_keeps {B} (proj : Store -> B) m :
  step_shape m ->
  (forall s l, proj (tick (set_track_records s l)) = proj s) ->
  forall s s0, proj s = proj s0 -> proj (snd (m s)) = proj s0.
Proof.
  intros Hm Hp s s0 E. destruct (Hm s) as [[e R]|[R|[r R]]]; rewrite R;
    cbn [snd]; [exact E | exact E | rewrite Hp; exact E].
Qed.

Lemma track_inv nm c p lbl prev cur s :
  time_monotone s /\ track_records_wf s ->
  time_monotone (snd (track nm c p lbl prev cur s))
  /\ track_records_wf (snd (track nm c p lbl prev cur s)).
Proof.
  intros [Hm W]. split.
  - unfold time_monotone.
    rewrite (shape_keeps time_at _ (track_shape nm c p lbl prev cur)
               (fun _ _ => eq_refl) s s eq_refl).
    exact Hm.
  - rewrite track_create. apply create_wf; assumption.
Qed.

Lemma model_save_clock {A} (T : table A) i s :
  (forall s l, clock (tbl_set_rows T s l) = clock s) ->
  (forall s n, clock (tbl_set_seq T s n) = clock s) ->
  clock s <= clock (snd (model_save T i s)).
Proof.
  intros Hr Hq. unfold model_save. cbv zeta.
  destruct (pk i) as [p|];
    repeat match goal with
           | |- context [match ?x with _ => _ end] => destruct x
           end;
    cbn [snd]; rewrite ?Hr, ?Hq; cbn [clock advance]; lia.
Qed.

Lemma model_save_inv {A} (T : table A) i s :
  keeps_records T ->
  time_monotone s /\ track_records_wf s ->
  time_monotone (snd (model_save T i s))
  /\ track_records_wf (snd (model_save T i s)).
Proof.
  intros [Hr Hq] [Hm W].
  assert (Et : time_at (snd (model_save T i s)) = time_at s).
  { apply (model_save_keeps T time_at); intros s' x; [reflexivity | |].
    - exact (proj1 (proj2 (Hr s' x))).
    - exact (proj1 (proj2 (Hq s' x))). }
  split.
  - unfold time_monotone. rewrite Et. exact Hm.
  - apply (wf_later s); [exact Hm | | exact Et | | exact W].
    + apply (model_save_keeps T track_records); intros s' x; [reflexivity | |].
      * exact (proj1 (Hr s' x)).
      * exact (proj1 (Hq s' x)).
    + apply model_save_clock; intros s' x.
      * exact (proj2 (proj2 (Hr s' x))).
      * exact (proj2 (proj2 (Hq s' x))).
Qed.

Lemma thermostat_keeps : keeps_records thermostat_table.
Proof. split; intros; (split; [|split]); reflexivity. Qed.

Lemma room_keeps : keeps_records room_table.
Proof. split; intros; (split; [|split]); reflexivity. Qed.

Lemma light_keeps : keeps_records light_table.
Proof. split; intros; (split; [|split]); reflexivity. Qed.





(** The row write of an initial save: on success one row, as stored,
    under the sequence's next value, which no row had; on failure the rows
    as they were. *)
Lemma initial_outcome {A} (T : table A) i s :
  pk i = None ->
  (forall s n, tbl_rows T (advance n s) = tbl_rows T s) ->
  (forall s n, tbl_seq T (advance n s) = tbl_seq T s) ->
  (forall s n, tbl_rows T (tbl_set_seq T s n) = tbl_rows T s) ->
  (forall s l, tbl_rows T (tbl_set_rows T s l) = l) ->
  match model_save T i s with
  | (inr _, s') =>
      exists row, stored_row T (current i) = Some row
        /\ lookup (tbl_seq T s + 1) (tbl_rows T s) = None
        /\ tbl_rows T s' = (tbl_rows T s ++ [(tbl_seq T s + 1, row)])%list
  | (inl _, s') => tbl_rows T s' = tbl_rows T s
  end.
Proof.
  intros Hp Ha Hs Hq Hr. unfold model_save, stored_row. rewrite Hp. cbv zeta.
  destruct (row_values (tbl_columns T (current i))) as [e|vs]; [apply Ha|].
  rewrite Hs.
  destruct (tbl_of_values T vs) as [row|]; [|rewrite Hq; apply Ha].
  rewrite Hq, Ha.
  destruct (lookup (tbl_seq T s + 1) (tbl_rows T s)) as [x|] eqn:L;
    [rewrite Hq; apply Ha|].
  destruct (tbl_parent_exists T _ _); [|rewrite Hq; apply Ha].
  exists row. split; [reflexivity|]. split; [reflexivity|].
  rewrite Hr. reflexivity.
Qed.


(** Case analysis of a stored row: every value prepared and converted. *)
Ltac stored_cases H :=
  repeat (match type of H with
          | context [match ?x with _ => _ end] =>
              lazymatch x with
              | context [match _ with _ => _ end] => fail
              | _ => destruct x
              end
          end;
          cbn [convert_row column_in room_of_values thermostat_of_values
               light_of_values] in H);
  try discriminate H.

(** The parent key of a stored row is the instance's. *)
Lemma room_stored_house r row :
  stored_row room_table r = Some row -> Room.house row = Room.house r.
Proof.
  unfold stored_row, row_values, room_table. intros H.
  cbn [tbl_columns tbl_of_values room_columns prep_row prep_column
       convert_row column_in] in H.
  stored_cases H; injection H as <-; reflexivity.
Qed.

Lemma thermostat_stored_house t row :
  stored_row thermostat_table t = Some row ->
  Thermostat.house row = Thermostat.house t.
Proof.
  unfold stored_row, row_values, thermostat_table. intros H.
  cbn [tbl_columns tbl_of_values thermostat_columns prep_row prep_column
       convert_row column_in] in H.
  stored_cases H; injection H as <-; reflexivity.
Qed.

Lemma light_stored_room l row :
  stored_row light_table l = Some row -> Light.room row = Light.room l.
Proof.
  unfold stored_row, row_values, light_table. intros H.
  cbn [tbl_columns tbl_of_values light_columns prep_row prep_column
       convert_row column_in] in H.
  stored_cases H; injection H as <-; reflexivity.
Qed.

Lemma all_from_spec k c f :
  all_from k c f = true ->
  forall x, (c <= x)%N -> (x < c + N.of_nat k)%N -> f x = true.
Proof.
  revert c. induction k as [|k IH]; intros c H x H1 H2; simpl in *.
  - lia.
  - apply andb_prop in H as [Hc Hk].
    destruct (N.eq_dec x c) as [->|Ne]; [exact Hc|].
    apply (IH (N.succ c)); [exact Hk | lia | lia].
Qed.

Lemma fits_all :
  all_from (N.to_nat 100000) 0 (fun c => fits_ok true c && fits_ok false c)
  = true.
Proof. vm_compute. reflexivity. Qed.


(** ** X1 *)




(** ** X2 *)




(** ** X3 *)




(** ** X4 *)

(** X4: whatever its outcome, a save of a Thermostat, Room or Light writes
    no table of the other entity types: besides its own table it only
    touches the TrackRecord table. *)
Theorem saves_touch_only_own_table :
  forall s,
    (forall i, let s' := snd (thermostat_save i s) in
       (houses s', rooms s', lights s') = (houses s, rooms s, lights s))
    /\ (forall i, let s' := snd (room_save i s) in
       (houses s', lights s', thermostats s')
       = (houses s, lights s, thermostats s))
    /\ (forall i, let s' := snd (light_save i s) in
       (houses s', rooms s', thermostats s')
       = (houses s, rooms s, thermostats s)).
Proof.
  intros s. split; [|split]; intros i; cbv zeta.
  - unfold thermostat_save. destruct (pk i) as [p|];
      [|apply (model_save_keeps _ (fun s => (houses s, rooms s, lights s)));
        reflexivity].
    apply (bind_inv (fun s' => (houses s', rooms s', lights s')
                               = (houses s, rooms s, lights s)));
      [ intros s1 E; apply (shape_keeps (fun s => (houses s, rooms s, lights s)));
        [apply when_shape, track_shape | reflexivity | exact E]
      | intros ? s1 E; cbv beta | reflexivity ].
    apply (bind_inv (fun s' => (houses s', rooms s', lights s')
                               = (houses s, rooms s, lights s)));
      [ intros s2 E2; apply (shape_keeps (fun s => (houses s, rooms s, lights s)));
        [apply when_shape, track_shape | reflexivity | exact E2]
      | intros ? s2 E2; cbv beta | exact E ].
    apply (bind_inv (fun s' => (houses s', rooms s', lights s')
                               = (houses s, rooms s, lights s)));
      [ intros s3 E3; apply (shape_keeps (fun s => (houses s, rooms s, lights s)));
        [apply when_shape, track_shape | reflexivity | exact E3]
      | intros ? s3 E3; cbv beta | exact E2 ].
    rewrite <- E3.
    apply (model_save_keeps _ (fun s => (houses s, rooms s, lights s)));
      reflexivity.
  - unfold room_save.
    apply (bind_inv (fun s' => (houses s', lights s', thermostats s')
                               = (houses s, lights s, thermostats s)));
      [ intros s1 E | intros ? s1 E; cbv beta | reflexivity ].
    + destruct (pk i) as [p|]; [|exact E].
      apply (shape_keeps (fun s => (houses s, lights s, thermostats s)));
        [apply when_shape, track_shape | reflexivity | exact E].
    + rewrite <- E.
      apply (model_save_keeps _ (fun s => (houses s, lights s, thermostats s)));
        reflexivity.
  - unfold light_save.
    apply (bind_inv (fun s' => (houses s', rooms s', thermostats s')
                               = (houses s, rooms s, thermostats s)));
      [ intros s1 E | intros ? s1 E; cbv beta | reflexivity ].
    + destruct (pk i) as [p|]; [|exact E].
      apply (shape_keeps (fun s => (houses s, rooms s, thermostats s)));
        [apply when_shape, track_shape | reflexivity | exact E].
    + rewrite <- E.
      apply (model_save_keeps _ (fun s => (houses s, rooms s, thermostats s)));
        reflexivity.
Qed.

(** ** X5 *)

(** X5: while [timezone.now()] does not go back, the TrackRecord table
    stays well formed (distinct primary keys; [created <= modified], each
    from a [timezone.now()] call of its own; timestamps no later than the
    last [timezone.now()]) through every write of the app: TrackRecord
    creation, the save of a Thermostat, Room or Light (whatever its
    outcome), and the deletion of a Thermostat, Light or Room. *)
Theorem track_records_wf_preserved :
  forall s, time_monotone s -> track_records_wf s ->
    (forall a, track_records_wf (snd (track_record_create a s)))
    /\ (forall i, track_records_wf (snd (thermostat_save i s)))
    /\ (forall i, track_records_wf (snd (room_save i s)))
    /\ (forall i, track_records_wf (snd (light_save i s)))
    /\ (forall k, track_records_wf (thermostat_delete k s))
    /\ (forall k, track_records_wf (light_delete k s))
    /\ (forall k, track_records_wf (room_delete k s)).
Proof.
  intros s Hm H.
  pose (I := fun s => time_monotone s /\ track_records_wf s).
  assert (HI : I s) by (split; assumption).
  assert (Hstep : forall b nm c p lbl prev cur s1, I s1 ->
            I (snd (when b (track nm c p lbl prev cur) s1))).
  { intros b nm c p lbl prev cur. apply when_inv. intros s1. apply track_inv. }
  split; [intros a; apply create_wf; assumption|].
  split; [|split; [|split; [|split; [|split]]]].
  - intros i. enough (Hi : I (snd (thermostat_save i s))) by exact (proj2 Hi).
    unfold thermostat_save. destruct (pk i) as [p|].
    + apply bind_inv; [intros s1; apply Hstep | intros _ s1 W1 | exact HI].
      apply bind_inv; [intros s2; apply Hstep | intros _ s2 W2 | exact W1].
      apply bind_inv; [intros s3; apply Hstep | intros _ s3 W3 | exact W2].
      apply model_save_inv; [apply thermostat_keeps | exact W3].
    + apply model_save_inv; [apply thermostat_keeps | exact HI].
  - intros i. enough (Hi : I (snd (room_save i s))) by exact (proj2 Hi).
    unfold room_save.
    apply bind_inv; [intros s1 W1 | intros _ s1 W1 | exact HI].
    + destruct (pk i); [apply Hstep, W1 | exact W1].
    + apply model_save_inv; [apply room_keeps | exact W1].
  - intros i. enough (Hi : I (snd (light_save i s))) by exact (proj2 Hi).
    unfold light_save.
    apply bind_inv; [intros s1 W1 | intros _ s1 W1 | exact HI].
    + destruct (pk i); [apply Hstep, W1 | exact W1].
    + apply model_save_inv; [apply light_keeps | exact W1].
  - intros k. eapply wf_filter; [reflexivity | reflexivity | reflexivity | exact H].
  - intros k. eapply wf_filter; [reflexivity | reflexivity | reflexivity | exact H].
  - intros k. eapply wf_filter; [reflexivity | reflexivity | reflexivity | exact H].
Qed.

Lemma track_records_wf_preserved_witness :
  time_monotone store1 /\ track_records_wf store1
  /\ (forall a, track_records_wf (snd (track_record_create a store1)))
  /\ (forall i, track_records_wf (snd (thermostat_save i store1)))
  /\ (forall i, track_records_wf (snd (room_save i store1)))
  /\ (forall i, track_records_wf (snd (light_save i store1)))
  /\ (forall k, track_records_wf (thermostat_delete k store1))
  /\ (forall k, track_records_wf (light_delete k store1))
  /\ (forall k, track_records_wf (room_delete k store1)).
Proof.
  assert (Hm : time_monotone store1) by (intros m n Hmn; exact Hmn).
  assert (W : track_records_wf store1) by (split; constructor).
  split; [exact Hm|]. split; [exact W|].
  apply (track_records_wf_preserved store1 Hm W).
Defined.
(** ** X6 *)

(** X6: creating a TrackRecord whose content type is not one of
    [equipments] (Light, Room, Thermostat) fails with a [ValidationError]
    naming [target_content_type] ([limit_choices_to]), even when the target
    object exists, and writes nothing. *)
Theorem create_rejects_non_equipment_target :
  forall s nm c oid st fr to,
    equipments c = false ->
    exists errs,
      track_record_create (TrackRecord.mk nm (Some c) oid st fr to) s
      = (inl (ValidationError errs), s)
      /\ In (FieldError "target_content_type"
               (ErrInvalidPk (content_type_pk c))) errs.
Proof.
  intros s nm c oid st fr to Hc.
  set (err := FieldError "target_content_type" (ErrInvalidPk (content_type_pk c))).
  assert (Hin : forall e2, In err (track_record_clean_fields
                                     (TrackRecord.mk nm (Some c) oid st fr to)
                                   ++ e2)%list).
  { intros e2. apply in_or_app. left. unfold track_record_clean_fields.
    cbn [TrackRecord.target_content_type]. apply in_or_app. right.
    apply in_or_app. left. unfold content_type_fk_clean. rewrite Hc.
    left. reflexivity. }
  unfold track_record_create, track_record_full_clean, track_record_clean.
  cbn [TrackRecord.target_content_type TrackRecord.target_object_id].
  destruct (resolve s c oid); cbv beta iota;
  match goal with
  | |- context [match (?l1 ++ ?l2)%list with [] => _ | _ :: _ => _ end] =>
      pose proof (Hin l2) as H; destruct (l1 ++ l2)%list as [|e l] eqn:E
  end; try (destruct H; fail);
  eexists; (split; [reflexivity | exact H]).
Qed.

Lemma create_rejects_non_equipment_target_witness :
  resolve store1 CT_house (Some 1) <> None
  /\ exists errs,
       track_record_create
         (TrackRecord.mk (PyStr "Test House1") (Some CT_house) (Some 1)
            (PyStr "State") (PyStr "on") (PyStr "off")) store1
       = (inl (ValidationError errs), store1)
       /\ In (FieldError "target_content_type" (ErrInvalidPk 7)) errs.
Proof.
  split; [discriminate|].
  exact (create_rejects_non_equipment_target store1 (PyStr "Test House1")
           CT_house (Some 1) (PyStr "State") (PyStr "on") (PyStr "off")
           eq_refl).
Defined.

(** ** X7 *)

(** X7: creating a TrackRecord without a content type raises
    [RelatedObjectDoesNotExist] from [clean()], not a [ValidationError]:
    the null [target_content_type] that [clean_fields()] reports is never
    raised, and nothing is written. *)
Theorem create_without_content_type_raises :
  forall s nm oid st fr to,
    In (FieldError "target_content_type" ErrNull)
       (track_record_clean_fields (TrackRecord.mk nm None oid st fr to))
    /\ track_record_create (TrackRecord.mk nm None oid st fr to) s
       = (inl (PyException "RelatedObjectDoesNotExist"), s).
Proof.
  intros s nm oid st fr to. split; [|reflexivity].
  unfold track_record_clean_fields. cbn [TrackRecord.target_content_type].
  apply in_or_app. right. apply in_or_app. left. left. reflexivity.
Qed.

(** ** X8 *)

(** X8: among the values a [DecimalField(max_digits=5, decimal_places=2)]
    holds as loaded from the database ([±c * 10^-2] with [c < 100000]),
    [str()] fits the 6 characters of [from_state]/[to_state] exactly when
    the value is not [-100.00] or below. *)
Theorem two_place_decimal_fits_state_field :
  forall neg c, (c < 100000)%N ->
    (String.length (py_str (dec2 neg c)) <= 6)%nat
    <-> ~ (neg = true /\ (10000 <= c)%N).
Proof.
  intros neg c Hc.
  assert (F : fits_ok neg c = true).
  { pose proof (all_from_spec _ _ _ fits_all c (N.le_0_l c)) as H.
    replace (0 + N.of_nat (N.to_nat 100000))%N with 100000%N in H
      by reflexivity.
    specialize (H Hc).
    apply andb_prop in H as [Ht Hf]. destruct neg; assumption. }
  unfold fits_ok in F. apply Bool.eqb_prop in F.
  destruct (Nat.leb_spec (String.length (py_str (dec2 neg c))) 6) as [L|L];
  destruct neg; destruct (N.leb_spec 10000 c) as [K|K];
    cbn [andb negb] in F; try discriminate F; split; intros H;
    try lia; try tauto; try (intros [_ H']; lia).
Qed.

Lemma two_place_decimal_fits_state_field_witness :
  ((String.length (py_str (dec2 true 10000)) <= 6)%nat
   <-> ~ (true = true /\ (10000 <= 10000)%N))
  /\ ((String.length (py_str (dec2 true 9999)) <= 6)%nat
      <-> ~ (true = true /\ (10000 <= 9999)%N)).
Proof.
  split; apply two_place_decimal_fits_state_field; vm_compute; reflexivity.
Defined.

(** ** X9 *)

(** X9: a TrackRecord that creation accepted renders right after its
    creation: its target resolves, and [str()] of the row read back gives
    ["[<target name>] <state_type> has been changed from <from> to <to> at
    <modified>"] instead of raising [TypeError]. *)
Theorem created_record_renders :
  forall datetime_str s a r s',
    track_record_create a s = (inr r, s') ->
    exists v,
      resolve s' (TrackRecordRow.target_content_type r)
        (Some (TrackRecordRow.target_object_id r)) = Some v
      /\ track_record_str datetime_str s' (row_instance r)
           (TrackRecordRow.modified r)
         = inr ("[" ++ py_str v ++ "] " ++ TrackRecordRow.state_type r
                ++ " has been changed from " ++ TrackRecordRow.from_state r
                ++ " to " ++ TrackRecordRow.to_state r
                ++ " at " ++ datetime_str (TrackRecordRow.modified r)).
Proof.
  intros dt s [nm [c|] oid st fr to] r s' H;
    unfold track_record_create, track_record_full_clean, track_record_clean
      in H;
    cbn [TrackRecord.target_content_type TrackRecord.target_object_id] in H;
    [|discriminate H].
  destruct (resolve s c oid) as [v|] eqn:R; cbv beta iota in H.
  - destruct (track_record_clean_fields _ ++ [])%list eqn:E; [|discriminate H].
    injection H as <- <-.
    apply app_eq_nil in E as [E _]. unfold track_record_clean_fields in E.
    apply app_eq_nil in E as [_ E]. apply app_eq_nil in E as [Ec _].
    cbn [TrackRecord.target_content_type content_type_fk_clean] in Ec.
    destruct (equipments c) eqn:Q; [|discriminate Ec].
    assert (Nt : c <> CT_trackrecord) by (intros ->; discriminate Q).
    destruct oid as [z|]; [|discriminate R].
    exists v. cbn [track_record_row TrackRecordRow.target_content_type
                   TrackRecordRow.target_object_id TrackRecord.target_content_type
                   TrackRecord.target_object_id].
    rewrite resolve_after_insert by exact Nt. split; [exact R|].
    unfold track_record_str, track_record_dunder_str, row_instance.
    cbn [TrackRecord.target_content_type TrackRecord.target_object_id
         TrackRecord.state_type TrackRecord.from_state TrackRecord.to_state
         track_record_row TrackRecordRow.target_content_type
         TrackRecordRow.target_object_id TrackRecordRow.state_type
         TrackRecordRow.from_state TrackRecordRow.to_state
         TrackRecordRow.modified].
    rewrite resolve_after_insert by exact Nt. rewrite R. reflexivity.
  - destruct (track_record_clean_fields _ ++ _)%list eqn:E; [|discriminate H].
    apply app_eq_nil in E as [_ E]. discriminate E.
Qed.

Definition light1_record : TrackRecord.t :=
  TrackRecord.mk (PyStr "Test Light1") (Some CT_light) (Some 1) (PyStr "State")
    (PyStr "on") (PyStr "off").

Lemma created_record_renders_witness :
  exists r s',
    track_record_create light1_record store1 = (inr r, s')
    /\ exists v,
         resolve s' (TrackRecordRow.target_content_type r)
           (Some (TrackRecordRow.target_object_id r)) = Some v
         /\ track_record_str (fun _ => "2026-10-17") s' (row_instance r)
              (TrackRecordRow.modified r)
            = inr ("[" ++ py_str v ++ "] " ++ TrackRecordRow.state_type r
                   ++ " has been changed from " ++ TrackRecordRow.from_state r
                   ++ " to " ++ TrackRecordRow.to_state r
                   ++ " at " ++ "2026-10-17").
Proof.
  eexists _, _. split; [reflexivity|].
  apply (created_record_renders (fun _ => "2026-10-17") store1 light1_record).
  reflexivity.
Defined.

(** ** X10 *)

(** X10: once a Room is deleted, [RoomSerializer.get_lights] of its id is
    empty (its lights were deleted with it, [on_delete=CASCADE]) and no
    house lists it in [HouseSerializer.get_rooms]. *)
Theorem room_delete_detaches :
  forall s k h,
    get_lights (room_delete k s) k = []
    /\ ~ In k (get_rooms (room_delete k s) h).
Proof.
  intros s k h. split.
  - unfold get_lights, room_light_keys, room_delete.
    cbn [lights set_track_records set_lights set_rooms].
    destruct (filter (fun kv => Light.room (snd kv) =? k) (filter _ (lights s)))
      as [|x l] eqn:E; [reflexivity|].
    assert (Hx : In x (x :: l)) by (left; reflexivity).
    rewrite <- E in Hx. apply filter_In in Hx as [Hx Hr].
    apply filter_In in Hx as [Hx Hn]. apply Bool.negb_true_iff in Hn.
    assert (Hin : existsb (Z.eqb (fst x)) (room_light_keys k s) = true).
    { apply existsb_exists. exists (fst x). split; [|apply Z.eqb_refl].
      unfold room_light_keys. apply in_map, filter_In. split; assumption. }
    rewrite Hin in Hn. discriminate Hn.
  - unfold get_rooms, room_delete.
    cbn [rooms set_track_records set_lights set_rooms]. intros H.
    apply in_map_iff in H as (x & Ex & Hx).
    apply filter_In in Hx as [Hx _]. unfold drop_key in Hx.
    apply filter_In in Hx as [_ Hk]. rewrite Ex, Z.eqb_refl in Hk.
    discriminate Hk.
Qed.

(** ** X11 *)

(** X11: after a successful initial save of a Room, Thermostat or Light,
    the key it got, the next value of the table's id sequence, is listed by
    the serializer of its parent: [HouseSerializer.get_rooms] and
    [get_thermostats] of its house, [RoomSerializer.get_lights] of its
    room. *)
Theorem created_entities_are_listed :
  forall s,
    (forall cur snap : Room.t,
       fst (room_save (mkinstance None cur snap) s) = inr tt ->
       In (room_seq s + 1)
          (get_rooms (snd (room_save (mkinstance None cur snap) s))
             (Room.house cur)))
    /\ (forall cur snap : Thermostat.t,
       fst (thermostat_save (mkinstance None cur snap) s) = inr tt ->
       In (thermostat_seq s + 1)
          (get_thermostats (snd (thermostat_save (mkinstance None cur snap) s))
             (Thermostat.house cur)))
    /\ (forall cur snap : Light.t,
       fst (light_save (mkinstance None cur snap) s) = inr tt ->
       In (light_seq s + 1)
          (get_lights (snd (light_save (mkinstance None cur snap) s))
             (Light.room cur))).
Proof.
  intros s. split; [|split]; intros cur snap;
    cbn [room_save thermostat_save light_save pk bind ret].
  - pose proof (initial_outcome room_table (mkinstance None cur snap) s eq_refl
                  (fun _ _ => eq_refl) (fun _ _ => eq_refl)
                  (fun _ _ => eq_refl) (fun _ _ => eq_refl)) as H.
    destruct (model_save room_table (mkinstance None cur snap) s)
      as [[e|u] s']; cbn [fst snd]; intros Hok; [discriminate|].
    destruct H as (row & S & L & R).
    apply room_stored_house in S. cbn [current] in S.
    cbn [tbl_rows tbl_seq room_table] in R.
    unfold get_rooms. apply (in_map fst _ (room_seq s + 1, row)), filter_In.
    split; [|cbn [snd]; rewrite S; apply Z.eqb_refl].
    rewrite R. apply in_or_app. right. left. reflexivity.
  - pose proof (initial_outcome thermostat_table (mkinstance None cur snap) s
                  eq_refl (fun _ _ => eq_refl) (fun _ _ => eq_refl)
                  (fun _ _ => eq_refl) (fun _ _ => eq_refl)) as H.
    destruct (model_save thermostat_table (mkinstance None cur snap) s)
      as [[e|u] s']; cbn [fst snd]; intros Hok; [discriminate|].
    destruct H as (row & S & L & R).
    apply thermostat_stored_house in S. cbn [current] in S.
    cbn [tbl_rows tbl_seq thermostat_table] in R.
    unfold get_thermostats.
    apply (in_map fst _ (thermostat_seq s + 1, row)), filter_In.
    split; [|cbn [snd]; rewrite S; apply Z.eqb_refl].
    rewrite R. apply in_or_app. right. left. reflexivity.
  - pose proof (initial_outcome light_table (mkinstance None cur snap) s eq_refl
                  (fun _ _ => eq_refl) (fun _ _ => eq_refl)
                  (fun _ _ => eq_refl) (fun _ _ => eq_refl)) as H.
    destruct (model_save light_table (mkinstance None cur snap) s)
      as [[e|u] s']; cbn [fst snd]; intros Hok; [discriminate|].
    destruct H as (row & S & L & R).
    apply light_stored_room in S. cbn [current] in S.
    cbn [tbl_rows tbl_seq light_table] in R.
    unfold get_lights, room_light_keys.
    apply (in_map fst _ (light_seq s + 1, row)), filter_In.
    split; [|cbn [snd]; rewrite S; apply Z.eqb_refl].
    rewrite R. apply in_or_app. right. left. reflexivity.
Qed.

(** ** X12 *)




(** ** X13 *)

(** X13: on PostgreSQL, where a [PositiveIntegerField] gets the validators
    [MinValueValidator(0)] and [MaxValueValidator(2147483647)], creating a
    TrackRecord whose [target_object_id] is negative or above 2147483647
    fails with a [ValidationError] naming that field, and writes
    nothing. *)
Theorem create_rejects_out_of_range_object_id :
  forall s nm c z st fr to,
    z < 0 \/ 2147483647 < z ->
    exists errs,
      track_record_create (TrackRecord.mk nm (Some c) (Some z) st fr to) s
      = (inl (ValidationError errs), s)
      /\ In (FieldError "target_object_id"
               (if z <? 0 then ErrMinValue 0 else ErrMaxValue 2147483647))
            errs.
Proof.
  intros s nm c z st fr to Hz.
  set (err := FieldError "target_object_id"
                (if z <? 0 then ErrMinValue 0 else ErrMaxValue 2147483647)).
  assert (Hin : forall e2, In err (track_record_clean_fields
                                     (TrackRecord.mk nm (Some c) (Some z)
                                        st fr to) ++ e2)%list).
  { intros e2. apply in_or_app. left. unfold track_record_clean_fields.
    cbn [TrackRecord.target_object_id]. apply in_or_app. right.
    apply in_or_app. right. apply in_or_app. left.
    unfold positive_integer_clean, err.
    destruct (Z.ltb_spec z 0) as [H|H].
    - apply in_or_app. left. left. reflexivity.
    - apply in_or_app. right.
      replace (2147483647 <? z) with true by (symmetry; apply Z.ltb_lt; lia).
      left. reflexivity. }
  unfold track_record_create, track_record_full_clean, track_record_clean.
  cbn [TrackRecord.target_content_type TrackRecord.target_object_id].
  destruct (resolve s c (Some z)); cbv beta iota;
  match goal with
  | |- context [match (?l1 ++ ?l2)%list with [] => _ | _ :: _ => _ end] =>
      pose proof (Hin l2) as H; destruct (l1 ++ l2)%list as [|e l] eqn:E
  end; try (destruct H; fail);
  eexists; (split; [reflexivity | exact H]).
Qed.

Lemma create_rejects_out_of_range_object_id_witness :
  (exists errs,
     track_record_create
       (TrackRecord.mk (PyStr "Test Light1") (Some CT_light) (Some (-1))
          (PyStr "State") (PyStr "on") (PyStr "off")) store1
     = (inl (ValidationError errs), store1)
     /\ In (FieldError "target_object_id" (ErrMinValue 0)) errs)
  /\ (exists errs,
     track_record_create
       (TrackRecord.mk (PyStr "Test Light1") (Some CT_light) (Some 2147483648)
          (PyStr "State") (PyStr "on") (PyStr "off")) store1
     = (inl (ValidationError errs), store1)
     /\ In (FieldError "target_object_id" (ErrMaxValue 2147483647)) errs).
Proof.
  split.
  - apply (create_rejects_out_of_range_object_id store1 (PyStr "Test Light1")
             CT_light (-1) (PyStr "State") (PyStr "on") (PyStr "off")).
    lia.
  - apply (create_rejects_out_of_range_object_id store1 (PyStr "Test Light1")
             CT_light 2147483648 (PyStr "State") (PyStr "on") (PyStr "off")).
    lia.
Defined.

(** ** X14 *)

(** X14: [TrackRecord.objects.create] either fails and leaves the store as
    it was, or appends exactly one row under the next value of the id
    sequence, a key no existing row has, which becomes the sequence's last
    value; [created] and [modified] come from two successive calls of
    [timezone.now()], and the clock advances past both. *)
Theorem track_record_create_effect :
  forall a s,
    match track_record_create a s with
    | (inl _, s') => s' = s
    | (inr r, s') =>
        s' = tick (set_track_records s (track_records s ++ [r])%list)
        /\ TrackRecordRow.id r = next_track_record_id s
        /\ ~ In (TrackRecordRow.id r) (map TrackRecordRow.id (track_records s))
        /\ track_record_seq s' = TrackRecordRow.id r
        /\ TrackRecordRow.created r = time_at s (clock s)
        /\ TrackRecordRow.modified r = time_at s (clock s + 1)
        /\ clock s' = clock s + 2
    end.
Proof.
  intros a s. unfold track_record_create.
  destruct (track_record_full_clean s a); [reflexivity|].
  split; [reflexivity|]. split; [reflexivity|].
  split; [apply next_track_record_id_fresh|].
  split; [|split; [reflexivity | split; reflexivity]].
  cbn [tick set_track_records track_records track_record_seq].
  rewrite max_track_record_id_app.
  cbn [track_record_row TrackRecordRow.id].
  pose proof (max_track_record_id_nonneg (track_records s)).
  unfold next_track_record_id. lia.
Qed.

(** ** X15 *)

(** X15: re-saving a persisted Thermostat, Room or Light whose monitored
    values equal its tracker snapshot and are not NaN (an instance saved as
    it was loaded) creates no TrackRecord: the save is exactly the row
    write of [super().save()], whatever its outcome. *)
Theorem resave_unchanged_only_writes_row :
  forall s p,
    (forall x : Thermostat.t,
       Thermostat.current_temperature x <> PyNaN ->
       Thermostat.temperature_set_point x <> PyNaN ->
       Thermostat.mode x <> PyNaN ->
       thermostat_save (mkinstance (Some p) x x) s
       = model_save thermostat_table (mkinstance (Some p) x x) s)
    /\ (forall x : Room.t,
       Room.current_temperature x <> PyNaN ->
       room_save (mkinstance (Some p) x x) s
       = model_save room_table (mkinstance (Some p) x x) s)
    /\ (forall x : Light.t,
       Light.state x <> PyNaN ->
       light_save (mkinstance (Some p) x x) s
       = model_save light_table (mkinstance (Some p) x x) s).
Proof.
  intros s p. split; [|split]; intros x; intros;
    unfold thermostat_save, room_save, light_save, has_changed;
    cbn [pk current snapshot]; rewrite ?py_eq_refl by assumption;
    reflexivity.
Qed.

(** ** X16 *)

(** X16: a string value of [state_type] passes [clean_fields()] exactly
    when it is one of the [TYPE] choices (["State"], ["Temperature"],
    ["Mode"], ["Temperature set point"]), so the labels the save hooks use
    are all accepted. *)
Theorem state_type_accepts_exactly_TYPE :
  forall x, charfield_clean "state_type" 25 (Some TYPE) (PyStr x) = []
            <-> In x TYPE.
Proof.
  intros x. split.
  - unfold charfield_clean, charfield_validate. cbn [charfield_to_python py_str].
    destruct x as [|ch x']; [cbn; discriminate|].
    cbn [is_empty negb].
    destruct (existsb (String.eqb (String ch x')) TYPE) eqn:E;
      [|discriminate].
    intros _. apply existsb_exists in E as (y & Hy & Ey).
    apply String.eqb_eq in Ey. subst y. exact Hy.
  - simpl. intros [<-|[<-|[<-|[<-|[]]]]]; reflexivity.
Qed.
